(** * Climate dashboard: load, filter and aggregate

    A shallow embedding of [app.py]: the loader
    [load_and_preprocess_data], the year/country filter of [main] and the
    series that the four [plot_*] functions draw.

    Conventions of the embedding.
    - A data frame is the list of its rows, in row order; a column is a
      record field.  A float cell is [option Q]: [None] is NaN, the marker
      pandas uses for a missing value, and [Some q] is the number [q].
      Arithmetic on floats is exact rational arithmetic; rounding is not
      modelled.
    - pandas operations are given by what they compute: [dropna] keeps the
      rows whose cell is present, boolean-mask indexing is [filter],
      [groupby(k)[c].mean()] lists the distinct keys in ascending order with
      the mean of the present cells of each group, [head] is a prefix.
    - What the program leaves to a library with many accepted inputs or an
      unspecified choice is a parameter: the date parser and the float
      parser of the loader, and the sort behind [sort_values].  Instances
      for the dataset's spellings, and two sorts, are given for evaluation.
    - Code that can raise returns a [result] or an [option]. *)

From Stdlib Require Import List ZArith QArith Qminmax Qfield String Ascii Bool Lia Lqa.
From Stdlib Require Import Sorting.Sorted Sorting.Permutation.
From Stdlib Require Import Structures.OrdersEx.
Import ListNotations.

Local Open Scope Z_scope.

(** ** Errors *)

Inductive LoadError : Type :=
| ParseError (column : string) (cell : string).

Inductive result (A : Type) : Type :=
| Ok (a : A)
| Err (e : LoadError).

Arguments Ok {A} a.
Arguments Err {A} e.

Definition bind {A B : Type} (m : result A) (k : A -> result B) : result B :=
  match m with
  | Ok a => k a
  | Err e => Err e
  end.

Notation "x <- m ;; k" := (bind m (fun x => k))
  (at level 61, m at next level, right associativity).

Fixpoint mapM {A B : Type} (f : A -> result B) (l : list A) : result (list B) :=
  match l with
  | [] => Ok []
  | a :: l' => b <- f a ;; bs <- mapM f l' ;; Ok (b :: bs)
  end.

Definition parse_with {A : Type} (column : string) (parser : string -> option A)
    (cell : string) : result A :=
  match parser cell with
  | Some a => Ok a
  | None => Err (ParseError column cell)
  end.

(** ** Timestamps and their calendar fields

    A pandas timestamp is a count of nanoseconds since 1970-01-01T00:00.
    [dt.year] and [dt.month] split the count into days and decompose the
    day number in the proleptic Gregorian calendar: first the year and the
    day within the year, by 400-, 100-, 4- and 1-year cycles counted from
    2000-01-01, then the month by walking the table of month lengths. *)

Record Timestamp : Type := { value : Z }.

Definition ns_per_day : Z := 24 * 60 * 60 * 1000 * 1000 * 1000.

Definition is_leapyear (year : Z) : bool :=
  (Z.land year 3 =? 0) &&
  (negb (Z.rem year 100 =? 0) || (Z.rem year 400 =? 0)).

Definition days_per_month_table (leap : bool) : list Z :=
  if leap
  then [31; 29; 31; 30; 31; 30; 31; 31; 30; 31; 30; 31]
  else [31; 28; 31; 30; 31; 30; 31; 31; 30; 31; 30; 31].

Definition days_per_400years : Z := 400 * 365 + 100 - 4 + 1.

(** The C division and remainder truncate towards zero: [Z.quot], [Z.rem]. *)
Definition days_to_yearsdays (days_ : Z) : Z * Z :=
  let days := days_ - (365 * 30 + 7) in
  let '(year, days) :=
    if 0 <=? days
    then (400 * Z.quot days days_per_400years, Z.rem days days_per_400years)
    else
      let year := 400 * Z.quot (days - (days_per_400years - 1)) days_per_400years in
      let days := Z.rem days days_per_400years in
      (year, if days <? 0 then days + days_per_400years else days) in
  let '(year, days) :=
    if 366 <=? days then
      let year := year + 100 * Z.quot (days - 1) (100 * 365 + 25 - 1) in
      let days := Z.rem (days - 1) (100 * 365 + 25 - 1) in
      if 365 <=? days then
        let year := year + 4 * Z.quot (days + 1) (4 * 365 + 1) in
        let days := Z.rem (days + 1) (4 * 365 + 1) in
        if 366 <=? days
        then (year + Z.quot (days - 1) 365, Z.rem (days - 1) 365)
        else (year, days)
      else (year, days)
    else (year, days) in
  (year + 2000, days).

Record datetimestruct : Type := { ds_year : Z; ds_month : Z; ds_day : Z }.

(** The loop over the twelve month lengths; [i] counts the months passed.
    When the table is exhausted the struct keeps the month and day it was
    initialised with. *)
Fixpoint month_loop (month_lengths : list Z) (i days : Z) (init : Z * Z) : Z * Z :=
  match month_lengths with
  | [] => init
  | len :: rest =>
      if days <? len then (i + 1, days + 1)
      else month_loop rest (i + 1) (days - len) init
  end.

Definition set_datetimestruct_days (days : Z) : datetimestruct :=
  let '(year, days) := days_to_yearsdays days in
  let '(month, day) := month_loop (days_per_month_table (is_leapyear year)) 0 days (1, 1) in
  {| ds_year := year; ds_month := month; ds_day := day |}.

(** Nanoseconds to whole days rounds towards minus infinity ([Z.div]). *)
Definition to_datetimestruct (t : Timestamp) : datetimestruct :=
  set_datetimestruct_days (value t / ns_per_day).

Definition dt_year (t : Timestamp) : Z := ds_year (to_datetimestruct t).
Definition dt_month (t : Timestamp) : Z := ds_month (to_datetimestruct t).

(** ** Strings *)

(** Python's [s[:-1]]: all but the last character; the empty string stays
    empty. *)
Fixpoint str_drop_last (s : string) : string :=
  match s with
  | EmptyString => EmptyString
  | String c EmptyString => EmptyString
  | String c rest => String c (str_drop_last rest)
  end.

(** ** Tables *)

Module Raw.
(** A row as [pd.read_csv] delivers it: text columns as strings, the
    numeric column [AverageTemperature] as a float, NaN where the cell is
    empty. *)
Record Row : Type := {
  dt : string;
  AverageTemperature : option Q;
  City : string;
  Country : string;
  Latitude : string;
  Longitude : string
}.
Definition DataFrame : Type := list Row.
End Raw.

Record Row : Type := {
  dt : Timestamp;
  AverageTemperature : option Q;
  City : string;
  Country : string;
  Latitude : Q;
  Longitude : Q;
  Year : Z;
  Month : Z
}.

Definition DataFrame : Type := list Row.

Definition notna {A : Type} (cell : option A) : bool :=
  match cell with
  | Some _ => true
  | None => false
  end.

(** ** The loader *)

Section Loader.

(** [pd.to_datetime] on one cell and [float] on one string; [None] when
    the library raises. *)
Variable to_datetime : string -> option Timestamp.
Variable to_float : string -> option Q.

(** [df.dropna(subset=['AverageTemperature'], inplace=True)] *)
Definition dropna (df : Raw.DataFrame) : Raw.DataFrame :=
  filter (fun r => notna (Raw.AverageTemperature r)) df.

(** [s.str[:-1].astype(float)] on one cell. *)
Definition coordinate (column cell : string) : result Q :=
  parse_with column to_float (str_drop_last cell).

(** Lines 15 to 23 on one row. *)
Definition preprocess_row (r : Raw.Row) : result Row :=
  t <- parse_with "dt" to_datetime (Raw.dt r) ;;
  let year := dt_year t in
  let month := dt_month t in
  lat <- coordinate "Latitude" (Raw.Latitude r) ;;
  lon <- coordinate "Longitude" (Raw.Longitude r) ;;
  Ok {| dt := t;
        AverageTemperature := Raw.AverageTemperature r;
        City := Raw.City r;
        Country := Raw.Country r;
        Latitude := lat;
        Longitude := lon;
        Year := year;
        Month := month |}.

(** [load_and_preprocess_data], from the parsed file on. *)
Definition load_and_preprocess_data (csv : Raw.DataFrame) : result DataFrame :=
  let df := dropna csv in
  mapM preprocess_row df.

End Loader.

(** ** The parsers on the dataset's spellings

    The dataset writes dates as [YYYY-MM-DD] and coordinates as a plain
    decimal followed by a hemisphere letter.  [iso_to_datetime] and
    [decimal_to_float] read these two spellings; they instantiate the
    loader's parsers wherever a concrete run is evaluated. *)

Definition digit (c : ascii) : option Z :=
  let n := Z.of_N (N_of_ascii c) in
  if (48 <=? n) && (n <=? 57) then Some (n - 48) else None.

(** Day number of a civil date, counted from 1970-01-01: 365 days a year,
    corrected for the leap years since (or until) the epoch, plus the
    months passed and the day of the month. *)
Definition get_datetimestruct_days (d : datetimestruct) : Z :=
  let year := ds_year d - 1970 in
  let days := year * 365 in
  let days :=
    if 0 <=? days then
      let year := year + 1 in
      let days := days + Z.quot year 4 in
      let year := year + 68 in
      let days := days - Z.quot year 100 in
      let year := year + 300 in
      days + Z.quot year 400
    else
      let year := year - 2 in
      let days := days + Z.quot year 4 in
      let year := year - 28 in
      let days := days - Z.quot year 100 in
      days + Z.quot year 400 in
  let month_lengths := days_per_month_table (is_leapyear (ds_year d)) in
  let days := fold_left Z.add (firstn (Z.to_nat (ds_month d - 1)) month_lengths) days in
  days + (ds_day d - 1).

Definition valid_date (d : datetimestruct) : bool :=
  (1 <=? ds_month d) && (ds_month d <=? 12) && (1 <=? ds_day d) &&
  (ds_day d <=? nth (Z.to_nat (ds_month d - 1))
                    (days_per_month_table (is_leapyear (ds_year d))) 0).

(** A nanosecond count fits a signed 64-bit integer whose least value is
    reserved for NaT. *)
Definition in_bounds (ns : Z) : bool :=
  (- 2 ^ 63 <? ns) && (ns <? 2 ^ 63).

(** The three numbers of [YYYY-MM-DD]. *)
Definition iso_fields (s : string) : option datetimestruct :=
  match list_ascii_of_string s with
  | [y1; y2; y3; y4; "-"%char; m1; m2; "-"%char; d1; d2] =>
      match digit y1, digit y2, digit y3, digit y4,
            digit m1, digit m2, digit d1, digit d2 with
      | Some a, Some b, Some c, Some d, Some e, Some f, Some g, Some h =>
          Some {| ds_year := 1000 * a + 100 * b + 10 * c + d;
                  ds_month := 10 * e + f;
                  ds_day := 10 * g + h |}
      | _, _, _, _, _, _, _, _ => None
      end
  | _ => None
  end.

Definition iso_to_datetime (s : string) : option Timestamp :=
  match iso_fields s with
  | Some date =>
      let ns := get_datetimestruct_days date * ns_per_day in
      if valid_date date && in_bounds ns
      then Some {| value := ns |}
      else None
  | None => None
  end.

(** Digits before and after the point: the mantissa read so far and the
    number of digits behind the point. *)
Fixpoint decimal_digits (cs : list ascii) (seen_point : bool) (mant : Z) (scale : nat)
    (ndigits : nat) : option (Z * nat * nat) :=
  match cs with
  | [] => Some (mant, scale, ndigits)
  | c :: cs' =>
      if Ascii.eqb c "."%char then
        if seen_point then None
        else decimal_digits cs' true mant scale ndigits
      else
        match digit c with
        | Some d =>
            decimal_digits cs' seen_point (10 * mant + d)
              (if seen_point then S scale else scale) (S ndigits)
        | None => None
        end
  end.

(** [float] on an optional sign, digits and at most one point, with at
    least one digit. *)
Definition decimal_to_float (s : string) : option Q :=
  let cs := list_ascii_of_string s in
  let '(sign, cs) :=
    match cs with
    | "-"%char :: cs' => (-1, cs')
    | "+"%char :: cs' => (1, cs')
    | _ => (1, cs)
    end in
  match decimal_digits cs false 0 0 0 with
  | Some (mant, scale, S _) => Some (Qmake (sign * mant) (Z.to_pos (10 ^ Z.of_nat scale)))
  | _ => None
  end.

(** ** The filter of [main] *)

Definition ALL : string := "All".

(** Lines 94 to 96: the year mask, then the country mask unless the
    selection is the sentinel. *)
Definition filter_data (df : DataFrame) (year_range : Z * Z) (selected_country : string)
    : DataFrame :=
  let filtered_df :=
    filter (fun r => (fst year_range <=? Year r) && (Year r <=? snd year_range)) df in
  if negb (selected_country =? ALL)%string
  then filter (fun r => (Country r =? selected_country)%string) filtered_df
  else filtered_df.

Module Main.
(** The two tables [main] holds while it runs. *)
Record locals : Type := { df : DataFrame; filtered_df : DataFrame }.

(** The assignment(s) to [filtered_df]; [df] is read, never assigned. *)
Definition filter_step (st : locals) (year_range : Z * Z) (selected_country : string)
    : locals :=
  {| df := df st;
     filtered_df := filter_data (df st) year_range selected_country |}.
End Main.

(** ** Means and group-by *)

Local Open Scope Q_scope.

(** The cells of a float column that are not NaN. *)
Fixpoint values (col : list (option Q)) : list Q :=
  match col with
  | [] => []
  | Some q :: col' => q :: values col'
  | None :: col' => values col'
  end.

Definition Qsum (l : list Q) : Q := fold_left Qplus l 0.

(** [Series.mean()], NaN skipped; NaN for a column without a number. *)
Definition mean (col : list (option Q)) : option Q :=
  match values col with
  | [] => None
  | vs => Some (Qsum vs / inject_Z (Z.of_nat (List.length vs)))
  end.

Section GroupBy.

Context {K : Type}.
Variable compare : K -> K -> comparison.

(** The distinct keys in ascending order. *)
Fixpoint insert_key (k : K) (ks : list K) : list K :=
  match ks with
  | [] => [k]
  | k' :: ks' =>
      match compare k k' with
      | Lt => k :: ks
      | Eq => ks
      | Gt => k' :: insert_key k ks'
      end
  end.

Definition group_keys (ks : list K) : list K := fold_right insert_key [] ks.

Definition same_key (k1 k2 : K) : bool :=
  match compare k1 k2 with
  | Eq => true
  | _ => false
  end.

Definition group (key : Row -> K) (df : DataFrame) (k : K) : DataFrame :=
  filter (fun r => same_key (key r) k) df.

(** [df.groupby(key)['AverageTemperature'].mean()] *)
Definition groupby_mean (key : Row -> K) (df : DataFrame) : list (K * option Q) :=
  map (fun k => (k, mean (map AverageTemperature (group key df k))))
      (group_keys (map key df)).

End GroupBy.

(** ** The four series *)

Definition plot_yearly_trend (df : DataFrame) : list (Z * option Q) :=
  groupby_mean Z.compare Year df.

Definition plot_monthly_trend (df : DataFrame) : list (Z * option Q) :=
  groupby_mean Z.compare Month df.

Section SortValues.

(** [numpy.argsort] with the default kind: the positions of a float
    array in an order that makes the values ascend.  The default kind
    is not a stable sort, so nothing else is known of the function. *)
Variable argsort : list Q -> list nat.

Context {K : Type}.







End SortValues.



(** *** The histogram *)

Definition bins : nat := 50.

Definition Qminimum (x : Q) (xs : list Q) : Q := fold_left Qmin xs x.
Definition Qmaximum (x : Q) (xs : list Q) : Q := fold_left Qmax xs x.

(** The range the buckets span: the data's least and greatest value, the
    unit interval for no data, and half a unit to either side of a single
    value. *)
Definition outer_edges (a : list Q) : Q * Q :=
  let '(first_edge, last_edge) :=
    match a with
    | [] => (0, 1)
    | x :: xs => (Qminimum x xs, Qmaximum x xs)
    end in
  if Qeq_bool first_edge last_edge
  then (first_edge - (1 # 2), last_edge + (1 # 2))
  else (first_edge, last_edge).

Definition of_nat (n : nat) : Q := inject_Z (Z.of_nat n).

(** [numpy.linspace start stop (num + 1)]: [num] equal steps. *)
Definition linspace (start stop : Q) (num : nat) : list Q :=
  let step := (stop - start) / of_nat num in
  map (fun i => start + of_nat i * step) (seq 0 (S num)).

(** A bucket is closed on the left and open on the right, except the last
    one, which is closed on both sides. *)
Definition in_bucket (last : bool) (lo hi x : Q) : bool :=
  Qle_bool lo x && (if last then Qle_bool x hi else negb (Qle_bool hi x)).

Definition histogram (a : list Q) : list (Q * Q * nat) :=
  let '(first_edge, last_edge) := outer_edges a in
  let edges := linspace first_edge last_edge bins in
  map (fun i =>
         let lo := nth i edges 0 in
         let hi := nth (S i) edges 0 in
         (lo, hi, List.length (filter (in_bucket (Nat.eqb (S i) bins) lo hi) a)))
      (seq 0 bins).

(** [sns.histplot(data=df, x='AverageTemperature', bins=50)]: the bars. *)
Definition plot_temperature_distribution (df : DataFrame) : list (Q * Q * nat) :=
  histogram (values (map AverageTemperature df)).

(** *** Two sorts behind [argsort]

    Insertion of the positions [0, 1, ...] one after the other into a list
    kept ascending by value.  With [before_equal = false] a position goes
    behind the positions of equal value (a stable sort); with
    [before_equal = true] it goes in front of them. *)




(** ** The sidebar and the metrics of [main] *)

(** [Series.min()] and [Series.max()] of an integer column; NaN ([None])
    for the empty column. *)
Definition Zminimum (col : list Z) : option Z :=
  match col with
  | [] => None
  | x :: xs => Some (fold_left Z.min xs x)
  end.

Definition Zmaximum (col : list Z) : option Z :=
  match col with
  | [] => None
  | x :: xs => Some (fold_left Z.max xs x)
  end.

(** Lines 82 to 87: the least and the greatest [Year] are the ends of the
    slider and its initial value.  [int] raises on NaN, so there is no
    slider ([None]) for a table without rows. *)
Definition year_slider (df : DataFrame) : option (Z * Z) :=
  match Zminimum (map Year df), Zmaximum (map Year df) with
  | Some lo, Some hi => Some (lo, hi)
  | _, _ => None
  end.

(** [Series.unique()]: the values in the order of their first occurrence. *)
Fixpoint unique_from (seen : list string) (col : list string) : list string :=
  match col with
  | [] => []
  | x :: col' =>
      if existsb (String.eqb x) seen
      then unique_from seen col'
      else x :: unique_from (x :: seen) col'
  end.

Definition unique (col : list string) : list string := unique_from [] col.

(** [sorted]: ascending, equal values in their order of arrival. *)
Fixpoint insort (x : string) (l : list string) : list string :=
  match l with
  | [] => [x]
  | y :: l' => if (x <=? y)%string then x :: l else y :: insort x l'
  end.

Definition sorted (l : list string) : list string := fold_right insort [] l.

(** Lines 90 and 91: the options of the country selector. *)
Definition countries (df : DataFrame) : list string :=
  sorted (unique (map Country df)).

Definition country_options (df : DataFrame) : list string :=
  ALL :: countries df.



(** [Series.min()] and [Series.max()] of a timestamp column; NaT ([None])
    for the empty column. *)
Definition earlier (a b : Timestamp) : Timestamp :=
  if (value b <? value a)%Z then b else a.

Definition later (a b : Timestamp) : Timestamp :=
  if (value a <? value b)%Z then b else a.

Definition dt_min (col : list Timestamp) : option Timestamp :=
  match col with
  | [] => None
  | t :: ts => Some (fold_left earlier ts t)
  end.

Definition dt_max (col : list Timestamp) : option Timestamp :=
  match col with
  | [] => None
  | t :: ts => Some (fold_left later ts t)
  end.

(** Line 105, before formatting: the years of the first and of the last
    date of the selection; the year of NaT is NaN. *)
Definition date_range (filtered_df : DataFrame) : option Z * option Z :=
  (option_map dt_year (dt_min (map dt filtered_df)),
   option_map dt_year (dt_max (map dt filtered_df))).

(** ** Sample tables *)

Local Open Scope string_scope.

Definition sample_csv : Raw.DataFrame :=
  [ {| Raw.dt := "1999-07-01"; Raw.AverageTemperature := Some 21.5;
       Raw.City := "Lyon"; Raw.Country := "France";
       Raw.Latitude := "45.81N"; Raw.Longitude := "5.77E" |};
    {| Raw.dt := "2000-01-01"; Raw.AverageTemperature := None;
       Raw.City := "Lima"; Raw.Country := "Peru";
       Raw.Latitude := "12.05S"; Raw.Longitude := "77.26W" |};
    {| Raw.dt := "2000-02-01"; Raw.AverageTemperature := Some 23.25;
       Raw.City := "Lima"; Raw.Country := "Peru";
       Raw.Latitude := "12.05S"; Raw.Longitude := "77.26W" |} ].

Definition observation (year month : Z) (country city : string) (temperature : Q) : Row :=
  {| dt := {| value := 0 |};
     AverageTemperature := Some temperature;
     City := city;
     Country := country;
     Latitude := 0;
     Longitude := 0;
     Year := year;
     Month := month |}.

Definition two_years : DataFrame :=
  [ observation 1999 12 "Peru" "Lima" 19;
    observation 2000 1 "Peru" "Lima" 10;
    observation 2000 1 "France" "Lyon" 20 ].


Local Close Scope string_scope.

(** ** Vocabulary of the statements *)

(** The rows read whose [AverageTemperature] is missing. *)
Definition count_missing (csv : Raw.DataFrame) : nat :=
  List.length (filter (fun r => negb (notna (Raw.AverageTemperature r))) csv).

(** A row whose date and coordinates the parsers accept. *)
Definition parsable (to_datetime : string -> option Timestamp)
    (to_float : string -> option Q) (r : Raw.Row) : Prop :=
  to_datetime (Raw.dt r) <> None /\
  to_float (str_drop_last (Raw.Latitude r)) <> None /\
  to_float (str_drop_last (Raw.Longitude r)) <> None.

(** The rows the filter is meant to keep. *)
Definition selected (lo hi : Z) (country : string) (r : Row) : bool :=
  ((lo <=? Year r)%Z && (Year r <=? hi)%Z) &&
  ((country =? ALL)%string || (Country r =? country)%string).

(** The rows of a table that carry a number, as numbers. *)
Definition temperatures (df : DataFrame) : list Q :=
  values (map AverageTemperature df).

(** Edge [i] of the histogram over a range. *)
Definition edge (first_edge last_edge : Q) (i : nat) : Q :=
  first_edge + of_nat i * ((last_edge - first_edge) / of_nat bins).




(** The check that a date survives the trip to a day number and back, for
    one date and for all dates of a year. *)
Definition datetimestruct_eqb (a b : datetimestruct) : bool :=
  ((ds_year a =? ds_year b) && (ds_month a =? ds_month b) && (ds_day a =? ds_day b))%Z.

Definition Zrange (lo : Z) (n : nat) : list Z :=
  map (fun i => (lo + Z.of_nat i)%Z) (seq 0 n).

Definition roundtrip_ok (y m d : Z) : bool :=
  let date := {| ds_year := y; ds_month := m; ds_day := d |} in
  if valid_date date
  then datetimestruct_eqb (set_datetimestruct_days (get_datetimestruct_days date)) date
  else true.

Definition roundtrip_year (y : Z) : bool :=
  forallb (fun m => forallb (roundtrip_ok y m) (Zrange 1 31)) (Zrange 1 12).

(** The table loaded from [sample_csv], and a file with a row that has
    neither a temperature nor a readable date. *)
Definition sample_df : DataFrame :=
  match load_and_preprocess_data iso_to_datetime decimal_to_float sample_csv with
  | Ok df => df
  | Err _ => []
  end.

Definition undated_row : Raw.Row :=
  {| Raw.dt := "unknown"; Raw.AverageTemperature := None;
     Raw.City := "Oslo"; Raw.Country := "Norway";
     Raw.Latitude := ""; Raw.Longitude := "" |}.

Definition misdated_row : Raw.Row :=
  {| Raw.dt := "2000-13-01"; Raw.AverageTemperature := Some 4.5;
     Raw.City := "Oslo"; Raw.Country := "Norway";
     Raw.Latitude := "59.91N"; Raw.Longitude := "10.75E" |}.




(** * Properties *)

(** ** The error monad *)

Lemma bind_Ok {A B : Type} (m : result A) (k : A -> result B) (b : B) :
  bind m k = Ok b -> exists a, m = Ok a /\ k a = Ok b.
Proof.
  destruct m as [a | e]; simpl; intros H.
  - exists a. split; [reflexivity | exact H].
  - discriminate H.
Qed.

Lemma parse_with_Ok {A : Type} (column : string) (parser : string -> option A)
    (cell : string) (a : A) :
  parse_with column parser cell = Ok a <-> parser cell = Some a.
Proof.
  unfold parse_with. destruct (parser cell) as [a' |]; split; intros H;
    try discriminate H; inversion H; reflexivity.
Qed.

Lemma mapM_Forall2 {A B : Type} (f : A -> result B) (l : list A) (l' : list B) :
  mapM f l = Ok l' <-> Forall2 (fun a b => f a = Ok b) l l'.
Proof.
  revert l'. induction l as [| a l IH]; intros l'; simpl.
  - split; intros H.
    + inversion H. constructor.
    + inversion H. reflexivity.
  - split; intros H.
    + apply bind_Ok in H. destruct H as [b [Hb H]].
      apply bind_Ok in H. destruct H as [bs [Hbs H]].
      inversion H; subst. constructor; [exact Hb | apply IH; exact Hbs].
    + inversion H as [| a' b l1 bs Hb Hbs]; subst.
      rewrite Hb. simpl. apply IH in Hbs. rewrite Hbs. reflexivity.
Qed.

Lemma Forall2_length_eq {A B : Type} (R : A -> B -> Prop) (l : list A) (l' : list B) :
  Forall2 R l l' -> List.length l = List.length l'.
Proof.
  induction 1; simpl; congruence.
Qed.

Lemma Forall2_Forall_r {A B : Type} (R : A -> B -> Prop) (P : B -> Prop)
    (l : list A) (l' : list B) :
  Forall2 R l l' -> (forall a b, In a l -> R a b -> P b) -> Forall P l'.
Proof.
  induction 1 as [| a b l l' Hab Hrest IH]; intros HP; constructor.
  - apply (HP a b); [left; reflexivity | exact Hab].
  - apply IH. intros a' b' Hin. apply HP. right. exact Hin.
Qed.

(** ** The loader *)


Lemma filter_partition_length {A : Type} (p : A -> bool) (l : list A) :
  (List.length (filter p l) + List.length (filter (fun a => negb (p a)) l)
   = List.length l)%nat.
Proof.
  induction l as [| a l IH]; simpl; [reflexivity |].
  destruct (p a); simpl; lia.
Qed.

Lemma dropna_length (csv : Raw.DataFrame) :
  (List.length (dropna csv) + count_missing csv = List.length csv)%nat.
Proof.
  unfold dropna, count_missing. apply filter_partition_length.
Qed.

Lemma dropna_In (csv : Raw.DataFrame) (r : Raw.Row) :
  In r (dropna csv) <-> In r csv /\ Raw.AverageTemperature r <> None.
Proof.
  unfold dropna. rewrite filter_In.
  destruct (Raw.AverageTemperature r); simpl; split; intros [H1 H2]; split;
    try assumption; try discriminate; congruence.
Qed.

Section LoaderFacts.

Variable to_datetime : string -> option Timestamp.
Variable to_float : string -> option Q.

Let preprocess := preprocess_row to_datetime to_float.
Let load := load_and_preprocess_data to_datetime to_float.

Lemma preprocess_row_Ok (r : Raw.Row) (c : Row) :
  preprocess r = Ok c <->
  exists t lat lon,
    to_datetime (Raw.dt r) = Some t /\
    to_float (str_drop_last (Raw.Latitude r)) = Some lat /\
    to_float (str_drop_last (Raw.Longitude r)) = Some lon /\
    c = {| dt := t;
           AverageTemperature := Raw.AverageTemperature r;
           City := Raw.City r;
           Country := Raw.Country r;
           Latitude := lat;
           Longitude := lon;
           Year := dt_year t;
           Month := dt_month t |}.
Proof.
  unfold preprocess, preprocess_row, coordinate. split.
  - intros H.
    apply bind_Ok in H. destruct H as [t [Ht H]].
    apply bind_Ok in H. destruct H as [lat [Hlat H]].
    apply bind_Ok in H. destruct H as [lon [Hlon H]].
    apply parse_with_Ok in Ht, Hlat, Hlon.
    exists t, lat, lon. inversion H. auto.
  - intros [t [lat [lon [Ht [Hlat [Hlon Hc]]]]]].
    apply (parse_with_Ok "dt") in Ht.
    apply (parse_with_Ok "Latitude") in Hlat.
    apply (parse_with_Ok "Longitude") in Hlon.
    rewrite Ht. simpl. rewrite Hlat. simpl. rewrite Hlon. simpl.
    rewrite Hc. reflexivity.
Qed.

Lemma load_rows (csv : Raw.DataFrame) (df : DataFrame) :
  load csv = Ok df <-> Forall2 (fun r c => preprocess r = Ok c) (dropna csv) df.
Proof.
  unfold load, load_and_preprocess_data. apply mapM_Forall2.
Qed.

(** The load goes through exactly when every row that survives [dropna]
    has a date and coordinates the parsers accept. *)
Lemma load_succeeds (csv : Raw.DataFrame) :
  Forall (parsable to_datetime to_float) (dropna csv) <->
  exists df, load csv = Ok df.
Proof.
  split.
  - intros H.
    assert (Hex : exists df, Forall2 (fun r c => preprocess r = Ok c) (dropna csv) df).
    { induction H as [| r l [Ht [Hlat Hlon]] _ [df IH]].
      - exists []. constructor.
      - destruct (to_datetime (Raw.dt r)) as [t |] eqn:Et; [| congruence].
        destruct (to_float (str_drop_last (Raw.Latitude r))) as [lat |] eqn:Elat;
          [| congruence].
        destruct (to_float (str_drop_last (Raw.Longitude r))) as [lon |] eqn:Elon;
          [| congruence].
        eexists (_ :: df). constructor; [| exact IH].
        apply preprocess_row_Ok. exists t, lat, lon. auto. }
    destruct Hex as [df Hdf]. exists df. apply load_rows. exact Hdf.
  - intros [df H]. apply load_rows in H.
    induction H as [| r c l l' Hrc _ IH]; constructor; [| exact IH].
    apply preprocess_row_Ok in Hrc.
    destruct Hrc as [t [lat [lon [Ht [Hlat [Hlon _]]]]]].
    unfold parsable. rewrite Ht, Hlat, Hlon. repeat split; discriminate.
Qed.

End LoaderFacts.

(** ** Calendar fields *)

Local Open Scope Z_scope.

Lemma month_loop_range (month_lengths : list Z) (i days : Z) :
  0 <= i ->
  1 <= fst (month_loop month_lengths i days (1, 1))
    <= i + Z.of_nat (List.length month_lengths) \/
  fst (month_loop month_lengths i days (1, 1)) = 1.
Proof.
  revert i days. induction month_lengths as [| len rest IH]; intros i days Hi.
  - right. reflexivity.
  - cbn [month_loop]. destruct (days <? len).
    + left. cbn [fst List.length]. lia.
    + destruct (IH (i + 1) (days - len)) as [H | H]; [lia | |].
      * left. cbn [List.length]. lia.
      * right. exact H.
Qed.

Lemma days_per_month_table_length (leap : bool) :
  List.length (days_per_month_table leap) = 12%nat.
Proof.
  destruct leap; reflexivity.
Qed.

Lemma dt_month_range (t : Timestamp) : 1 <= dt_month t <= 12.
Proof.
  unfold dt_month, to_datetimestruct, set_datetimestruct_days.
  destruct (days_to_yearsdays (value t / ns_per_day)) as [year days].
  pose proof (month_loop_range (days_per_month_table (is_leapyear year)) 0 days) as H.
  rewrite days_per_month_table_length in H.
  destruct (month_loop (days_per_month_table (is_leapyear year)) 0 days (1, 1))
    as [month day].
  cbn [fst] in H. cbn [ds_month]. lia.
Qed.

Lemma Zrange_In (lo : Z) (n : nat) (z : Z) :
  lo <= z < lo + Z.of_nat n -> In z (Zrange lo n).
Proof.
  intros H. unfold Zrange. apply in_map_iff. exists (Z.to_nat (z - lo)).
  split; [lia | apply in_seq; lia].
Qed.

Lemma datetimestruct_eqb_eq (a b : datetimestruct) :
  datetimestruct_eqb a b = true -> a = b.
Proof.
  unfold datetimestruct_eqb. rewrite !andb_true_iff, !Z.eqb_eq.
  destruct a, b. cbn. intros [[? ?] ?]. subst. reflexivity.
Qed.

Lemma roundtrip_years : forallb roundtrip_year (Zrange 1677 586) = true.
Proof.
  vm_cast_no_check (eq_refl true).
Qed.

Lemma valid_date_day (date : datetimestruct) :
  valid_date date = true -> 1 <= ds_month date <= 12 /\ 1 <= ds_day date <= 31.
Proof.
  unfold valid_date. rewrite !andb_true_iff, !Z.leb_le. intros [[[H1 H2] H3] H4].
  split; [lia |]. split; [lia |].
  eapply Z.le_trans; [exact H4 |].
  assert (Hm : exists k, Z.to_nat (ds_month date - 1) = k /\ (k < 12)%nat)
    by (eexists; split; [reflexivity | lia]).
  destruct Hm as [k [-> Hk]].
  destruct (is_leapyear (ds_year date));
    do 12 (destruct k as [| k]; [cbn; lia |]); lia.
Qed.

(** The calendar fields of the timestamp of a date are the date: reading a
    date of the years 1677 to 2262 and asking for its year, month and day
    gives back what was read. *)
Lemma to_datetimestruct_of_date (date : datetimestruct) :
  1677 <= ds_year date <= 2262 ->
  valid_date date = true ->
  to_datetimestruct {| value := get_datetimestruct_days date * ns_per_day |} = date.
Proof.
  intros Hy Hv. unfold to_datetimestruct. cbn [value].
  rewrite Z.div_mul by (unfold ns_per_day; lia).
  destruct (valid_date_day date Hv) as [Hm Hd].
  assert (Hiy : In (ds_year date) (Zrange 1677 586))
    by (apply Zrange_In; change (Z.of_nat 586) with 586; lia).
  assert (Him : In (ds_month date) (Zrange 1 12))
    by (apply Zrange_In; change (Z.of_nat 12) with 12; lia).
  assert (Hid : In (ds_day date) (Zrange 1 31))
    by (apply Zrange_In; change (Z.of_nat 31) with 31; lia).
  pose proof roundtrip_years as H. rewrite forallb_forall in H.
  specialize (H _ Hiy). unfold roundtrip_year in H. rewrite forallb_forall in H.
  specialize (H _ Him). rewrite forallb_forall in H. specialize (H _ Hid).
  unfold roundtrip_ok in H. destruct date as [y m d]. cbn [ds_year ds_month ds_day] in *.
  rewrite Hv in H. apply datetimestruct_eqb_eq. exact H.
Qed.

Lemma fold_left_add_shift (l : list Z) (a : Z) :
  fold_left Z.add l a = a + fold_left Z.add l 0.
Proof.
  revert a. induction l as [| x l IH]; intros a; cbn [fold_left]; [lia |].
  rewrite (IH (a + x)), (IH (0 + x)). lia.
Qed.

Lemma months_passed_bound (leap : bool) (k : nat) :
  0 <= fold_left Z.add (firstn k (days_per_month_table leap)) 0 <= 366.
Proof.
  destruct leap; do 13 (destruct k as [| k]; [cbn; lia |]); cbn; lia.
Qed.

(** A date whose nanosecond count fits 64 bits lies in the years 1677 to
    2262. *)
Lemma in_bounds_year (date : datetimestruct) :
  valid_date date = true ->
  in_bounds (get_datetimestruct_days date * ns_per_day) = true ->
  1677 <= ds_year date <= 2262.
Proof.
  intros Hv Hb. destruct (valid_date_day date Hv) as [_ Hd].
  unfold in_bounds in Hb. rewrite andb_true_iff, !Z.ltb_lt in Hb.
  unfold get_datetimestruct_days, ns_per_day in Hb.
  rewrite fold_left_add_shift in Hb.
  pose proof (months_passed_bound (is_leapyear (ds_year date))
                (Z.to_nat (ds_month date - 1))) as Hm.
  set (passed := fold_left Z.add _ 0) in *. clearbody passed.
  change (2 ^ 63) with 9223372036854775808 in Hb.
  destruct (0 <=? (ds_year date - 1970) * 365) eqn:E;
    [apply Z.leb_le in E | apply Z.leb_gt in E];
    Z.to_euclidean_division_equations; lia.
Qed.

(** With the dataset's date spelling, the calendar fields of a parsed cell
    are the numbers written in the cell. *)
Lemma iso_to_datetime_fields (s : string) (t : Timestamp) :
  iso_to_datetime s = Some t ->
  exists date,
    iso_fields s = Some date /\ valid_date date = true /\
    to_datetimestruct t = date.
Proof.
  unfold iso_to_datetime. destruct (iso_fields s) as [date |]; [| discriminate].
  destruct (valid_date date) eqn:Hv; [| discriminate].
  destruct (in_bounds _) eqn:Hb; [| discriminate].
  intros H. inversion H. exists date. split; [reflexivity | split; [exact Hv |]].
  apply to_datetimestruct_of_date; [| exact Hv].
  apply in_bounds_year; assumption.
Qed.

Local Close Scope Z_scope.

(** ** The loader: specification *)

(** C1.  When the date and the coordinates of every row with a
    temperature are accepted by the parsers, the load returns a table (and
    it returns none otherwise).  The rows with a missing
    [AverageTemperature] are gone from it and nothing else is: the cleaned
    table and the rows with a missing temperature add up to the rows read,
    one missing value out of [N] rows leaves [N - 1] rows, and no row of
    the cleaned table has a missing [AverageTemperature]. *)
Theorem load_drops_missing_temperature
    (to_datetime : string -> option Timestamp) (to_float : string -> option Q)
    (csv : Raw.DataFrame) :
  Forall (parsable to_datetime to_float) (dropna csv) ->
  exists df,
    load_and_preprocess_data to_datetime to_float csv = Ok df /\
    (List.length df + count_missing csv = List.length csv)%nat /\
    (count_missing csv = 1%nat -> List.length df = (List.length csv - 1)%nat) /\
    Forall (fun r => AverageTemperature r <> None) df.
Proof.
  intros Hparsable. apply load_succeeds in Hparsable.
  destruct Hparsable as [df H]. exists df. split; [exact H |].
  apply load_rows in H.
  pose proof (Forall2_length_eq _ _ _ H) as Hlen.
  pose proof (dropna_length csv) as Hdrop.
  split; [lia | split; [lia |]].
  apply (Forall2_Forall_r _ _ _ _ H).
  intros r c Hin Hrc. apply preprocess_row_Ok in Hrc.
  destruct Hrc as [t [lat [lon [_ [_ [_ Hc]]]]]].
  apply dropna_In in Hin. destruct Hin as [_ Hpresent].
  rewrite Hc. exact Hpresent.
Qed.

Lemma sample_csv_parsable :
  Forall (parsable iso_to_datetime decimal_to_float) (dropna sample_csv).
Proof.
  repeat constructor; discriminate.
Qed.

Lemma load_drops_missing_temperature_witness :
  Forall (parsable iso_to_datetime decimal_to_float) (dropna sample_csv) /\
  count_missing sample_csv = 1%nat /\
  List.length sample_csv = 3%nat /\
  exists df,
    load_and_preprocess_data iso_to_datetime decimal_to_float sample_csv = Ok df /\
    (List.length df + count_missing sample_csv = List.length sample_csv)%nat /\
    (count_missing sample_csv = 1%nat ->
     List.length df = (List.length sample_csv - 1)%nat) /\
    Forall (fun r => AverageTemperature r <> None) df.
Proof.
  split; [exact sample_csv_parsable |].
  split; [reflexivity | split; [reflexivity |]].
  apply (load_drops_missing_temperature iso_to_datetime decimal_to_float sample_csv).
  exact sample_csv_parsable.
Defined.



(** With the dataset's date spelling, [Year] and [Month] of a loaded row
    are the year and the month written in its [dt] cell. *)
Lemma load_iso_year_month (to_float : string -> option Q)
    (csv : Raw.DataFrame) (df : DataFrame) :
  load_and_preprocess_data iso_to_datetime to_float csv = Ok df ->
  Forall2 (fun r c => exists date,
               iso_fields (Raw.dt r) = Some date /\
               Year c = ds_year date /\ Month c = ds_month date)
          (dropna csv) df.
Proof.
  intros H. apply load_rows in H.
  induction H as [| r c l l' Hrc _ IH]; constructor; [| exact IH].
  apply preprocess_row_Ok in Hrc.
  destruct Hrc as [t [lat [lon [Ht [_ [_ Hc]]]]]].
  apply iso_to_datetime_fields in Ht. destruct Ht as [date [Hf [_ Hd]]].
  exists date. rewrite Hc. cbn [Year Month]. unfold dt_year, dt_month.
  rewrite Hd. auto.
Qed.

Lemma str_drop_last_app (s : string) (c : ascii) :
  str_drop_last (s ++ String c EmptyString) = s.
Proof.
  induction s as [| a s IH]; [reflexivity |].
  cbn [String.append str_drop_last]. rewrite IH.
  destruct s; reflexivity.
Qed.

(** C3.  Each [Latitude] and [Longitude] of a loaded table is the float
    read from the cell without its last character.  The last character is
    never looked at, so two cells that differ only there give the same
    number and no sign is flipped: ["34.5N"] gives 34.5, and ["12.3W"] and
    ["12.3E"] both give 12.3. *)
Theorem load_coordinates
    (to_datetime : string -> option Timestamp) (to_float : string -> option Q)
    (csv : Raw.DataFrame) (df : DataFrame) :
  load_and_preprocess_data to_datetime to_float csv = Ok df ->
  Forall2 (fun r c =>
             to_float (str_drop_last (Raw.Latitude r)) = Some (Latitude c) /\
             to_float (str_drop_last (Raw.Longitude r)) = Some (Longitude c))
          (dropna csv) df /\
  (forall (column s : string) (c1 c2 : ascii),
      coordinate to_float column (s ++ String c1 EmptyString) =
      coordinate to_float column (s ++ String c2 EmptyString)) /\
  (forall (column s : string) (c : ascii),
      coordinate to_float column (s ++ String c EmptyString) =
      parse_with column to_float s) /\
  coordinate decimal_to_float "Latitude" "34.5N" = Ok 34.5 /\
  coordinate decimal_to_float "Longitude" "12.3W" = Ok 12.3 /\
  coordinate decimal_to_float "Longitude" "12.3E" = Ok 12.3.
Proof.
  intros H. apply load_rows in H. split; [| split; [| split]].
  - induction H as [| r c l l' Hrc _ IH]; constructor; [| exact IH].
    apply preprocess_row_Ok in Hrc.
    destruct Hrc as [t [lat [lon [_ [Hlat [Hlon Hc]]]]]].
    rewrite Hc. cbn [Latitude Longitude]. split; assumption.
  - intros column s c1 c2. unfold coordinate.
    rewrite !str_drop_last_app. reflexivity.
  - intros column s c. unfold coordinate.
    rewrite str_drop_last_app. reflexivity.
  - repeat split; reflexivity.
Qed.

Lemma load_coordinates_witness :
  exists df,
    load_and_preprocess_data iso_to_datetime decimal_to_float sample_csv = Ok df /\
    map Latitude df = [45.81; 12.05] /\
    map Longitude df = [5.77; 77.26] /\
    Forall2 (fun r c =>
               decimal_to_float (str_drop_last (Raw.Latitude r)) = Some (Latitude c) /\
               decimal_to_float (str_drop_last (Raw.Longitude r)) = Some (Longitude c))
            (dropna sample_csv) df.
Proof.
  eexists. split; [vm_compute; reflexivity |].
  split; [reflexivity | split; [reflexivity |]].
  apply (load_coordinates iso_to_datetime decimal_to_float sample_csv).
  reflexivity.
Defined.

(** ** The filter: specification *)


Lemma filter_filter {A : Type} (p q : A -> bool) (l : list A) :
  filter q (filter p l) = filter (fun a => p a && q a) l.
Proof.
  induction l as [| a l IH]; simpl; [reflexivity |].
  destruct (p a); simpl; [destruct (q a); rewrite IH; reflexivity | exact IH].
Qed.

Lemma filter_data_selected (df : DataFrame) (lo hi : Z) (country : string) :
  filter_data df (lo, hi) country = filter (selected lo hi country) df.
Proof.
  unfold filter_data, selected. cbn [fst snd].
  destruct (country =? ALL)%string; cbn [negb orb].
  - apply filter_ext. intros r. rewrite andb_true_r. reflexivity.
  - apply filter_filter.
Qed.

Lemma filter_nil_iff {A : Type} (p : A -> bool) (l : list A) :
  filter p l = [] <-> (forall a, In a l -> p a = false).
Proof.
  induction l as [| a l IH]; simpl.
  - split; [intros _ a [] | reflexivity].
  - destruct (p a) eqn:Ea; split; intros H.
    + discriminate H.
    + specialize (H a (or_introl eq_refl)). congruence.
    + intros b [Hb | Hb]; [subst; exact Ea | apply IH; assumption].
    + apply IH. intros b Hb. apply H. right. exact Hb.
Qed.

(** C4.  The filter returns the rows of the table, in table order, whose
    year lies in [lo, hi] and, unless the selection is ["All"], whose
    country is the selected one; with ["All"] only the year counts; and
    when no row qualifies the result is the empty table.  With
    [lo = hi = 2000] and ["All"] it returns exactly the rows of 2000. *)
Theorem filter_data_correct (df : DataFrame) (lo hi : Z) (country : string) :
  filter_data df (lo, hi) country = filter (selected lo hi country) df /\
  (forall r, In r (filter_data df (lo, hi) country) <->
             In r df /\ (lo <= Year r <= hi)%Z /\
             (country = ALL \/ Country r = country)) /\
  filter_data df (lo, hi) ALL =
    filter (fun r => (lo <=? Year r)%Z && (Year r <=? hi)%Z) df /\
  (filter_data df (lo, hi) country = [] <->
   forall r, In r df -> selected lo hi country r = false) /\
  filter_data df (2000, 2000)%Z ALL = filter (fun r => (Year r =? 2000)%Z) df.
Proof.
  split; [apply filter_data_selected |].
  split.
  { intros r. rewrite filter_data_selected, filter_In. unfold selected.
    rewrite !andb_true_iff, orb_true_iff, !Z.leb_le, !String.eqb_eq.
    intuition congruence. }
  split; [reflexivity |].
  split.
  { rewrite filter_data_selected. apply filter_nil_iff. }
  unfold filter_data. cbn [fst snd negb]. rewrite String.eqb_refl. cbn [negb].
  apply filter_ext. intros r.
  destruct (Z.eqb_spec (Year r) 2000) as [E | E].
  - rewrite E. reflexivity.
  - destruct (Z.leb_spec 2000 (Year r)), (Z.leb_spec (Year r) 2000);
      cbn [andb]; try reflexivity; lia.
Qed.

(** C10.  The filter does not look at the order of the two bounds: with
    [hi < lo] no year lies in the range and the filtered table is empty,
    without an error; and the cleaned table [main] holds is the same
    before and after. *)
Theorem filter_inverted_range (st : Main.locals) (lo hi : Z) (country : string) :
  (hi < lo)%Z ->
  Main.filtered_df (Main.filter_step st (lo, hi) country) = [] /\
  Main.df (Main.filter_step st (lo, hi) country) = Main.df st.
Proof.
  intros Hlt. split; [| reflexivity].
  cbn [Main.filter_step Main.filtered_df].
  rewrite filter_data_selected. apply filter_nil_iff.
  intros r _. unfold selected.
  destruct (Z.leb_spec lo (Year r)), (Z.leb_spec (Year r) hi);
    cbn [andb]; try reflexivity; lia.
Qed.

Lemma filter_inverted_range_witness :
  (1999 < 2000)%Z /\
  Main.filtered_df
    (Main.filter_step {| Main.df := two_years; Main.filtered_df := [] |}
                      (2000, 1999)%Z "Peru") = [] /\
  Main.df
    (Main.filter_step {| Main.df := two_years; Main.filtered_df := [] |}
                      (2000, 1999)%Z "Peru") = two_years.
Proof.
  split; [reflexivity |].
  apply (filter_inverted_range {| Main.df := two_years; Main.filtered_df := [] |}
           2000%Z 1999%Z "Peru").
  reflexivity.
Defined.

(** ** Group-by *)


Lemma values_present_length (df : DataFrame) :
  Forall (fun r => AverageTemperature r <> None) df ->
  List.length (temperatures df) = List.length df.
Proof.
  unfold temperatures. induction 1 as [| r df Hr _ IH]; [reflexivity |].
  cbn [map values]. destruct (AverageTemperature r); [| congruence].
  cbn [List.length]. rewrite IH. reflexivity.
Qed.

Lemma mean_present (df : DataFrame) :
  df <> [] ->
  Forall (fun r => AverageTemperature r <> None) df ->
  mean (map AverageTemperature df) =
    Some (Qsum (temperatures df) / of_nat (List.length df)).
Proof.
  intros Hne Hall. pose proof (values_present_length df Hall) as Hlen.
  unfold mean. fold (temperatures df).
  destruct (temperatures df) as [| q qs] eqn:E.
  - destruct df; [congruence | discriminate Hlen].
  - rewrite <- Hlen. reflexivity.
Qed.

Section GroupByFacts.

Context {K : Type}.
Variable compare : K -> K -> comparison.

Hypothesis compare_eq : forall a b, compare a b = Eq <-> a = b.
Hypothesis compare_antisym : forall a b, compare b a = CompOpp (compare a b).
Hypothesis compare_trans :
  forall a b c, compare a b = Lt -> compare b c = Lt -> compare a c = Lt.

Let lt (a b : K) : Prop := compare a b = Lt.

Lemma same_key_eq (a b : K) : same_key compare a b = true <-> a = b.
Proof.
  unfold same_key. rewrite <- compare_eq.
  destruct (compare a b); split; intros H; congruence.
Qed.

Lemma insert_key_In (k x : K) (ks : list K) :
  In x (insert_key compare k ks) <-> x = k \/ In x ks.
Proof.
  induction ks as [| k' ks IH]; cbn [insert_key].
  - simpl. intuition.
  - destruct (compare k k') eqn:E.
    + apply compare_eq in E. subst k'. simpl. intuition.
    + simpl. intuition.
    + cbn [In]. rewrite IH. intuition.
Qed.

Lemma insert_key_sorted (k : K) (ks : list K) :
  StronglySorted lt ks -> StronglySorted lt (insert_key compare k ks).
Proof.
  induction 1 as [| k' ks Hs IH Hall]; cbn [insert_key].
  - constructor; constructor.
  - destruct (compare k k') eqn:E.
    + constructor; assumption.
    + constructor; [constructor; assumption |].
      constructor; [exact E |].
      apply Forall_forall. intros x Hx.
      rewrite Forall_forall in Hall.
      apply (compare_trans k k' x E). apply Hall. exact Hx.
    + constructor; [exact IH |].
      apply Forall_forall. intros x Hx. apply insert_key_In in Hx.
      destruct Hx as [Hx | Hx].
      * subst x. unfold lt. rewrite compare_antisym, E. reflexivity.
      * rewrite Forall_forall in Hall. apply Hall. exact Hx.
Qed.

Lemma group_keys_In (x : K) (ks : list K) :
  In x (group_keys compare ks) <-> In x ks.
Proof.
  induction ks as [| k ks IH]; cbn [group_keys fold_right]; [reflexivity |].
  fold (group_keys compare ks). rewrite insert_key_In, IH. simpl.
  intuition.
Qed.

Lemma group_keys_sorted (ks : list K) :
  StronglySorted lt (group_keys compare ks).
Proof.
  induction ks as [| k ks IH]; cbn [group_keys fold_right]; [constructor |].
  apply insert_key_sorted. exact IH.
Qed.

Variable key : Row -> K.

Lemma groupby_mean_keys (df : DataFrame) :
  map fst (groupby_mean compare key df) = group_keys compare (map key df).
Proof.
  unfold groupby_mean. rewrite map_map. cbn [fst]. apply map_id.
Qed.

Lemma groupby_mean_sorted (df : DataFrame) :
  StronglySorted lt (map fst (groupby_mean compare key df)).
Proof.
  rewrite groupby_mean_keys. apply group_keys_sorted.
Qed.

(** A key is listed exactly when some row carries it. *)
Lemma groupby_mean_key_In (df : DataFrame) (k : K) :
  In k (map fst (groupby_mean compare key df)) <->
  exists r, In r df /\ key r = k.
Proof.
  rewrite groupby_mean_keys, group_keys_In, in_map_iff.
  split; intros [r [H1 H2]]; exists r; auto.
Qed.

Lemma group_In (df : DataFrame) (k : K) (r : Row) :
  In r (group compare key df k) <-> In r df /\ key r = k.
Proof.
  unfold group. rewrite filter_In, same_key_eq. reflexivity.
Qed.

(** Each listed value is the mean over the rows of its key, and that
    group of rows is not empty. *)
Lemma groupby_mean_In (df : DataFrame) (k : K) (m : option Q) :
  In (k, m) (groupby_mean compare key df) <->
  (exists r, In r df /\ key r = k) /\
  m = mean (map AverageTemperature (group compare key df k)).
Proof.
  unfold groupby_mean. rewrite in_map_iff. split.
  - intros [k' [Heq Hin]]. inversion Heq; subst k'.
    apply group_keys_In, in_map_iff in Hin.
    destruct Hin as [r [Hr Hk]]. split; [exists r; auto | reflexivity].
  - intros [[r [Hr Hk]] Hm]. exists k. split; [rewrite Hm; reflexivity |].
    apply group_keys_In, in_map_iff. exists r. auto.
Qed.

Lemma groupby_mean_NoDup (df : DataFrame) :
  NoDup (map fst (groupby_mean compare key df)).
Proof.
  pose proof (groupby_mean_sorted df) as H.
  induction H as [| k ks _ IH Hall]; constructor; [| exact IH].
  intros Hin. rewrite Forall_forall in Hall. specialize (Hall k Hin).
  unfold lt in Hall.
  assert (Hrefl : compare k k = Eq) by (apply compare_eq; reflexivity).
  congruence.
Qed.

(** On a table without missing temperatures every listed mean is a
    number: the sum over the group divided by the size of the group. *)
Lemma groupby_mean_present (df : DataFrame) (k : K) (m : option Q) :
  Forall (fun r => AverageTemperature r <> None) df ->
  In (k, m) (groupby_mean compare key df) ->
  group compare key df k <> [] /\
  m = Some (Qsum (temperatures (group compare key df k)) /
            of_nat (List.length (group compare key df k))).
Proof.
  intros Hall Hin. apply groupby_mean_In in Hin.
  destruct Hin as [[r [Hr Hk]] Hm].
  assert (Hne : group compare key df k <> []).
  { intros E. assert (Hin : In r (group compare key df k))
      by (apply group_In; auto).
    rewrite E in Hin. exact Hin. }
  split; [exact Hne |]. rewrite Hm. apply mean_present; [exact Hne |].
  apply Forall_forall. intros x Hx. apply group_In in Hx.
  rewrite Forall_forall in Hall. apply Hall. tauto.
Qed.

End GroupByFacts.

(** *** Integer keys *)

Lemma Z_compare_antisym (a b : Z) : (b ?= a)%Z = CompOpp (a ?= b)%Z.
Proof.
  apply Z.compare_antisym.
Qed.

Lemma Z_compare_trans (a b c : Z) :
  (a ?= b)%Z = Lt -> (b ?= c)%Z = Lt -> (a ?= c)%Z = Lt.
Proof.
  rewrite !Z.compare_lt_iff. lia.
Qed.




(** ** The yearly and the monthly trend: specification *)



(** ** Sorting by value *)








Lemma In_firstn {A : Type} (n : nat) (l : list A) (x : A) :
  In x (firstn n l) -> In x l.
Proof.
  intros H. rewrite <- (firstn_skipn n l). apply in_or_app. left. exact H.
Qed.


Lemma StronglySorted_firstn {A : Type} (R : A -> A -> Prop) (n : nat) (l : list A) :
  StronglySorted R l -> StronglySorted R (firstn n l).
Proof.
  intros H. revert n. induction H as [| a l Hs IH Ha]; intros [| n];
    cbn [firstn]; try constructor.
  - apply IH.
  - apply Forall_forall. intros x Hx. rewrite Forall_forall in Ha.
    apply Ha. exact (In_firstn _ _ _ Hx).
Qed.




(** *** The two insertion sorts meet the specification *)






(** *** City names as keys *)

Lemma String_compare_eq (a b : string) : String.compare a b = Eq <-> a = b.
Proof.
  split; [apply String.compare_eq_iff |].
  intros E. subst b. destruct (String.compare a a) eqn:C; [reflexivity | |];
    pose proof (String.compare_antisym a a) as H; rewrite C in H; discriminate H.
Qed.


Lemma String_compare_trans (a b c : string) :
  String.compare a b = Lt -> String.compare b c = Lt -> String.compare a c = Lt.
Proof.
  intros H1 H2.
  exact (@StrictOrder_Transitive _ _ String_as_OT.lt_strorder a b c H1 H2).
Qed.

(** ** The hottest cities: specification *)












(** ** The histogram *)

Lemma Qmin_cases (x y : Q) : (Qmin x y = x /\ x <= y) \/ (Qmin x y = y /\ y <= x).
Proof.
  unfold Qmin, GenericMinMax.gmin. destruct (x ?= y) eqn:E.
  - left. split; [reflexivity |]. apply Qeq_alt in E. rewrite E. apply Qle_refl.
  - left. split; [reflexivity |]. apply Qlt_le_weak, Qlt_alt. exact E.
  - right. split; [reflexivity |]. apply Qlt_le_weak, Qgt_alt. exact E.
Qed.

Lemma Qmax_cases (x y : Q) : (Qmax x y = x /\ y <= x) \/ (Qmax x y = y /\ x <= y).
Proof.
  unfold Qmax, GenericMinMax.gmax. destruct (x ?= y) eqn:E.
  - left. split; [reflexivity |]. apply Qeq_alt in E. rewrite E. apply Qle_refl.
  - right. split; [reflexivity |]. apply Qlt_le_weak, Qlt_alt. exact E.
  - left. split; [reflexivity |]. apply Qlt_le_weak, Qgt_alt. exact E.
Qed.

(** The least value is a value of the list and below all of them. *)
Lemma Qminimum_spec (x : Q) (xs : list Q) :
  In (Qminimum x xs) (x :: xs) /\ forall y, In y (x :: xs) -> Qminimum x xs <= y.
Proof.
  unfold Qminimum. revert x. induction xs as [| z xs IH]; intros x; cbn [fold_left].
  - split; [left; reflexivity |]. intros y [E | []]. subst. apply Qle_refl.
  - destruct (IH (Qmin x z)) as [Hin Hle]. split.
    + destruct Hin as [E | Hin]; [| right; right; exact Hin].
      rewrite <- E. destruct (Qmin_cases x z) as [[Em _] | [Em _]]; rewrite Em;
        [left | right; left]; reflexivity.
    + intros y Hy.
      assert (Hm : fold_left Qmin xs (Qmin x z) <= Qmin x z)
        by (apply Hle; left; reflexivity).
      destruct Hy as [E | [E | Hy]].
      * subst y. apply (Qle_trans _ _ _ Hm). apply Q.le_min_l.
      * subst y. apply (Qle_trans _ _ _ Hm). apply Q.le_min_r.
      * apply Hle. right. exact Hy.
Qed.

Lemma Qmaximum_spec (x : Q) (xs : list Q) :
  In (Qmaximum x xs) (x :: xs) /\ forall y, In y (x :: xs) -> y <= Qmaximum x xs.
Proof.
  unfold Qmaximum. revert x. induction xs as [| z xs IH]; intros x; cbn [fold_left].
  - split; [left; reflexivity |]. intros y [E | []]. subst. apply Qle_refl.
  - destruct (IH (Qmax x z)) as [Hin Hle]. split.
    + destruct Hin as [E | Hin]; [| right; right; exact Hin].
      rewrite <- E. destruct (Qmax_cases x z) as [[Em _] | [Em _]]; rewrite Em;
        [left | right; left]; reflexivity.
    + intros y Hy.
      assert (Hm : Qmax x z <= fold_left Qmax xs (Qmax x z))
        by (apply Hle; left; reflexivity).
      destruct Hy as [E | [E | Hy]].
      * subst y. apply (Qle_trans _ (Qmax x z)); [apply Q.le_max_l | exact Hm].
      * subst y. apply (Qle_trans _ (Qmax x z)); [apply Q.le_max_r | exact Hm].
      * apply Hle. right. exact Hy.
Qed.



Lemma nth_linspace (start stop : Q) (num i : nat) :
  (i <= num)%nat ->
  nth i (linspace start stop num) 0 = start + of_nat i * ((stop - start) / of_nat num).
Proof.
  intros Hi. unfold linspace.
  rewrite (nth_indep _ 0 ((fun j => start + of_nat j * ((stop - start) / of_nat num)) 0%nat))
    by (rewrite length_map, length_seq; lia).
  rewrite (map_nth (fun j => start + of_nat j * ((stop - start) / of_nat num))).
  rewrite seq_nth by lia. reflexivity.
Qed.

Lemma histogram_edges (a : list Q) :
  histogram a =
  map (fun i =>
         (edge (fst (outer_edges a)) (snd (outer_edges a)) i,
          edge (fst (outer_edges a)) (snd (outer_edges a)) (S i),
          List.length
            (filter (in_bucket (Nat.eqb (S i) bins)
                       (edge (fst (outer_edges a)) (snd (outer_edges a)) i)
                       (edge (fst (outer_edges a)) (snd (outer_edges a)) (S i))) a)))
      (seq 0 bins).
Proof.
  unfold histogram. destruct (outer_edges a) as [first_edge last_edge]. cbn [fst snd].
  apply map_ext_in. intros i Hi. apply in_seq in Hi.
  rewrite !nth_linspace by lia. reflexivity.
Qed.

Lemma of_nat_S (i : nat) : of_nat (S i) == of_nat i + 1.
Proof.
  unfold of_nat. rewrite Nat2Z.inj_succ. unfold Z.succ. rewrite inject_Z_plus.
  reflexivity.
Qed.

Lemma edge_step (first_edge last_edge : Q) (i : nat) :
  edge first_edge last_edge (S i) ==
  edge first_edge last_edge i + (last_edge - first_edge) / of_nat bins.
Proof.
  unfold edge. rewrite of_nat_S. ring.
Qed.

Lemma edge_first (first_edge last_edge : Q) :
  edge first_edge last_edge 0 == first_edge.
Proof.
  unfold edge, of_nat. cbn [Z.of_nat inject_Z]. ring.
Qed.

Lemma edge_last (first_edge last_edge : Q) :
  edge first_edge last_edge bins == last_edge.
Proof.
  unfold edge, of_nat, bins. cbn [Z.of_nat inject_Z]. field.
Qed.

Lemma width_positive (first_edge last_edge : Q) :
  first_edge < last_edge -> 0 < (last_edge - first_edge) / of_nat bins.
Proof.
  intros H. apply Qlt_shift_div_l; [reflexivity | lra].
Qed.

Lemma edge_increasing (first_edge last_edge : Q) (i : nat) :
  first_edge < last_edge ->
  edge first_edge last_edge i < edge first_edge last_edge (S i).
Proof.
  intros H. pose proof (width_positive _ _ H). pose proof (edge_step first_edge last_edge i).
  lra.
Qed.

Lemma Qle_bool_false (x y : Q) : Qle_bool x y = false <-> y < x.
Proof.
  split; intros H.
  - apply Qnot_le_lt. intros Hle. apply Qle_bool_iff in Hle. congruence.
  - destruct (Qle_bool x y) eqn:E; [| reflexivity].
    apply Qle_bool_iff in E. lra.
Qed.



Section Buckets.

(** Ascending edges [E 0 < E 1 < ...] and the buckets between them, the
    [n]-th being the last. *)
Variable E : nat -> Q.
Hypothesis E_increasing : forall i, E i < E (S i).





End Buckets.




Lemma filter_all {A : Type} (p : A -> bool) (l : list A) :
  (forall x, In x l -> p x = true) -> filter p l = l.
Proof.
  induction l as [| a l IH]; intros H; cbn [filter]; [reflexivity |].
  rewrite (H a (or_introl eq_refl)). f_equal. apply IH.
  intros x Hx. apply H. right. exact Hx.
Qed.



(** * Further properties *)

(** ** The loader *)

(** What every row of a loaded table satisfies. *)
Lemma load_invariant
    (to_datetime : string -> option Timestamp) (to_float : string -> option Q)
    (csv : Raw.DataFrame) (df : DataFrame) :
  load_and_preprocess_data to_datetime to_float csv = Ok df ->
  Forall (fun r => AverageTemperature r <> None /\
                   Year r = dt_year (dt r) /\
                   Month r = dt_month (dt r) /\
                   (1 <= Month r <= 12)%Z) df.
Proof.
  intros H. apply load_rows in H.
  apply (Forall2_Forall_r _ _ _ _ H).
  intros r c Hin Hrc. apply preprocess_row_Ok in Hrc.
  destruct Hrc as [t [lat [lon [_ [_ [_ Hc]]]]]].
  apply dropna_In in Hin. destruct Hin as [_ Hpresent].
  rewrite Hc. cbn [AverageTemperature Year Month dt].
  repeat split; try assumption; apply dt_month_range.
Qed.

(** X1.  The load keeps the rows that have a temperature in the order of
    the file and leaves their city, country and temperature as read. *)
Theorem load_keeps_columns
    (to_datetime : string -> option Timestamp) (to_float : string -> option Q)
    (csv : Raw.DataFrame) (df : DataFrame) :
  load_and_preprocess_data to_datetime to_float csv = Ok df ->
  map City df = map Raw.City (dropna csv) /\
  map Country df = map Raw.Country (dropna csv) /\
  map AverageTemperature df = map Raw.AverageTemperature (dropna csv).
Proof.
  intros H. apply load_rows in H.
  induction H as [| r c l l' Hrc _ [IH1 [IH2 IH3]]]; [repeat split |].
  apply preprocess_row_Ok in Hrc.
  destruct Hrc as [t [lat [lon [_ [_ [_ Hc]]]]]].
  cbn [map]. rewrite IH1, IH2, IH3, Hc. repeat split.
Qed.

Lemma load_keeps_columns_witness :
  load_and_preprocess_data iso_to_datetime decimal_to_float sample_csv = Ok sample_df /\
  map City sample_df = ["Lyon"%string; "Lima"%string] /\
  map City sample_df = map Raw.City (dropna sample_csv) /\
  map Country sample_df = map Raw.Country (dropna sample_csv) /\
  map AverageTemperature sample_df = map Raw.AverageTemperature (dropna sample_csv).
Proof.
  split; [reflexivity | split; [reflexivity |]].
  apply (load_keeps_columns iso_to_datetime decimal_to_float sample_csv).
  reflexivity.
Defined.

(** X2.  A row without a temperature is dropped before anything else of it
    is read: wherever it stands in the file and whatever its date and
    coordinates are, the load gives what it gives without the row. *)
Theorem load_skips_row_without_temperature
    (to_datetime : string -> option Timestamp) (to_float : string -> option Q)
    (before after : Raw.DataFrame) (r : Raw.Row) :
  Raw.AverageTemperature r = None ->
  load_and_preprocess_data to_datetime to_float (before ++ r :: after) =
  load_and_preprocess_data to_datetime to_float (before ++ after).
Proof.
  intros Hr. unfold load_and_preprocess_data, dropna.
  rewrite !filter_app. cbn [filter]. rewrite Hr. reflexivity.
Qed.

Lemma load_skips_row_without_temperature_witness :
  Raw.AverageTemperature undated_row = None /\
  iso_to_datetime (Raw.dt undated_row) = None /\
  load_and_preprocess_data iso_to_datetime decimal_to_float
    (firstn 1 sample_csv ++ undated_row :: skipn 1 sample_csv) =
  load_and_preprocess_data iso_to_datetime decimal_to_float
    (firstn 1 sample_csv ++ skipn 1 sample_csv).
Proof.
  split; [reflexivity | split; [reflexivity |]].
  apply (load_skips_row_without_temperature iso_to_datetime decimal_to_float).
  reflexivity.
Defined.

(** X3.  One row that has a temperature but a date or a coordinate the
    parser rejects makes the whole load fail: no table is returned. *)
Theorem load_fails_on_unreadable_row
    (to_datetime : string -> option Timestamp) (to_float : string -> option Q)
    (csv : Raw.DataFrame) (r : Raw.Row) :
  In r csv ->
  Raw.AverageTemperature r <> None ->
  ~ parsable to_datetime to_float r ->
  exists e, load_and_preprocess_data to_datetime to_float csv = Err e.
Proof.
  intros Hin Hpresent Hbad.
  destruct (load_and_preprocess_data to_datetime to_float csv) as [df | e] eqn:E.
  - exfalso. apply Hbad.
    assert (Hall : Forall (parsable to_datetime to_float) (dropna csv))
      by (apply load_succeeds; exists df; exact E).
    rewrite Forall_forall in Hall. apply Hall. apply dropna_In. auto.
  - exists e. reflexivity.
Qed.

Lemma load_fails_on_unreadable_row_witness :
  In misdated_row (sample_csv ++ [misdated_row]) /\
  Raw.AverageTemperature misdated_row <> None /\
  ~ parsable iso_to_datetime decimal_to_float misdated_row /\
  exists e,
    load_and_preprocess_data iso_to_datetime decimal_to_float
      (sample_csv ++ [misdated_row]) = Err e.
Proof.
  assert (Hin : In misdated_row (sample_csv ++ [misdated_row]))
    by (apply in_or_app; right; left; reflexivity).
  assert (Hpresent : Raw.AverageTemperature misdated_row <> None) by discriminate.
  assert (Hbad : ~ parsable iso_to_datetime decimal_to_float misdated_row)
    by (intros [H _]; apply H; reflexivity).
  split; [exact Hin | split; [exact Hpresent | split; [exact Hbad |]]].
  exact (load_fails_on_unreadable_row iso_to_datetime decimal_to_float
           (sample_csv ++ [misdated_row]) misdated_row Hin Hpresent Hbad).
Defined.



(** ** The sidebar of [main] *)

Lemma fold_min_spec (xs : list Z) (x : Z) :
  In (fold_left Z.min xs x) (x :: xs) /\
  forall y, In y (x :: xs) -> (fold_left Z.min xs x <= y)%Z.
Proof.
  revert x. induction xs as [| z xs IH]; intros x; cbn [fold_left].
  - split; [left; reflexivity |]. intros y [E | []]. lia.
  - destruct (IH (Z.min x z)) as [Hin Hle]. split.
    + destruct Hin as [E | Hin]; [| right; right; exact Hin].
      rewrite <- E. destruct (Z.min_spec x z) as [[_ Em] | [_ Em]]; rewrite Em;
        [left | right; left]; reflexivity.
    + intros y Hy.
      assert (Hm : (fold_left Z.min xs (Z.min x z) <= Z.min x z)%Z)
        by (apply Hle; left; reflexivity).
      destruct Hy as [E | [E | Hy]]; [lia | lia |].
      apply Hle. right. exact Hy.
Qed.

Lemma fold_max_spec (xs : list Z) (x : Z) :
  In (fold_left Z.max xs x) (x :: xs) /\
  forall y, In y (x :: xs) -> (y <= fold_left Z.max xs x)%Z.
Proof.
  revert x. induction xs as [| z xs IH]; intros x; cbn [fold_left].
  - split; [left; reflexivity |]. intros y [E | []]. lia.
  - destruct (IH (Z.max x z)) as [Hin Hle]. split.
    + destruct Hin as [E | Hin]; [| right; right; exact Hin].
      rewrite <- E. destruct (Z.max_spec x z) as [[_ Em] | [_ Em]]; rewrite Em;
        [right; left | left]; reflexivity.
    + intros y Hy.
      assert (Hm : (Z.max x z <= fold_left Z.max xs (Z.max x z))%Z)
        by (apply Hle; left; reflexivity).
      destruct Hy as [E | [E | Hy]]; [lia | lia |].
      apply Hle. right. exact Hy.
Qed.

(** Every year of the table lies between the ends of the slider. *)
Lemma year_slider_bounds (df : DataFrame) (lo hi : Z) :
  year_slider df = Some (lo, hi) ->
  forall r, In r df -> (lo <= Year r <= hi)%Z.
Proof.
  unfold year_slider, Zminimum, Zmaximum.
  destruct df as [| r0 df]; [discriminate |]. cbn [map].
  intros H. inversion H; subst. intros r Hr.
  apply (in_map Year) in Hr. cbn [map] in Hr.
  split; [apply fold_min_spec | apply fold_max_spec]; exact Hr.
Qed.

(** X5.  A table without rows has no year slider: [main] stops there.
    Otherwise the ends of the slider are the least and the greatest year
    of the table, both years of some row, and the initial selection (the
    whole slider, all countries) shows the whole table. *)
Theorem year_slider_spans_table (df : DataFrame) :
  match year_slider df with
  | None => df = []
  | Some (lo, hi) =>
      df <> [] /\ (lo <= hi)%Z /\
      In lo (map Year df) /\ In hi (map Year df) /\
      (forall r, In r df -> (lo <= Year r <= hi)%Z) /\
      filter_data df (lo, hi) ALL = df
  end.
Proof.
  unfold year_slider, Zminimum, Zmaximum.
  destruct df as [| r0 df]; [reflexivity |]. cbn [map].
  destruct (fold_min_spec (map Year df) (Year r0)) as [Hmin_in Hmin].
  destruct (fold_max_spec (map Year df) (Year r0)) as [Hmax_in Hmax].
  assert (Hall : forall r, In r (r0 :: df) ->
            (fold_left Z.min (map Year df) (Year r0) <= Year r
             <= fold_left Z.max (map Year df) (Year r0))%Z).
  { intros r Hr. apply (in_map Year) in Hr. cbn [map] in Hr.
    split; [apply Hmin | apply Hmax]; exact Hr. }
  split; [discriminate |].
  split; [specialize (Hall r0 (or_introl eq_refl)); lia |].
  split; [exact Hmin_in |]. split; [exact Hmax_in |]. split; [exact Hall |].
  rewrite filter_data_selected. apply filter_all.
  intros r Hr. unfold selected. rewrite String.eqb_refl.
  specialize (Hall r Hr).
  destruct (Z.leb_spec (fold_left Z.min (map Year df) (Year r0)) (Year r)),
           (Z.leb_spec (Year r) (fold_left Z.max (map Year df) (Year r0)));
    cbn [andb orb]; try reflexivity; lia.
Qed.

(** *** Distinct values *)

Lemma existsb_eqb_In (x : string) (l : list string) :
  existsb (String.eqb x) l = true <-> In x l.
Proof.
  rewrite existsb_exists. split.
  - intros [y [Hy E]]. apply String.eqb_eq in E. subst. exact Hy.
  - intros H. exists x. split; [exact H | apply String.eqb_refl].
Qed.

Lemma unique_from_In (seen col : list string) (x : string) :
  In x (unique_from seen col) <-> In x col /\ ~ In x seen.
Proof.
  revert seen. induction col as [| y col IH]; intros seen; cbn [unique_from].
  - simpl. tauto.
  - destruct (existsb (String.eqb y) seen) eqn:E.
    + apply existsb_eqb_In in E. rewrite IH. cbn [In].
      split; [tauto |]. intros [[Hy | Hx] Hn]; [subst; contradiction | tauto].
    + assert (Hy : ~ In y seen)
        by (intros H; apply existsb_eqb_In in H; congruence).
      cbn [In]. rewrite IH. cbn [In].
      destruct (string_dec y x) as [-> | Hne]; [tauto |].
      split; [intros [H | H]; [contradiction | tauto] |].
      intros [[H | H] Hn]; [contradiction |]. right. tauto.
Qed.

Lemma unique_from_NoDup (seen col : list string) : NoDup (unique_from seen col).
Proof.
  revert seen. induction col as [| y col IH]; intros seen; cbn [unique_from].
  - constructor.
  - destruct (existsb (String.eqb y) seen); [apply IH |].
    constructor; [| apply IH].
    rewrite unique_from_In. cbn [In]. tauto.
Qed.

Lemma unique_In (col : list string) (x : string) : In x (unique col) <-> In x col.
Proof.
  unfold unique. rewrite unique_from_In. simpl. tauto.
Qed.

Lemma unique_NoDup (col : list string) : NoDup (unique col).
Proof.
  apply unique_from_NoDup.
Qed.


(** *** Sorting names *)

Lemma insort_perm (x : string) (l : list string) : Permutation (insort x l) (x :: l).
Proof.
  induction l as [| y l IH]; cbn [insort]; [apply Permutation_refl |].
  destruct (x <=? y)%string; [apply Permutation_refl |].
  eapply Permutation_trans; [apply perm_skip; exact IH | apply perm_swap].
Qed.

Lemma sorted_perm (l : list string) : Permutation (sorted l) l.
Proof.
  induction l as [| x l IH]; cbn [sorted fold_right]; [constructor |].
  fold (sorted l). eapply Permutation_trans; [apply insort_perm |].
  apply perm_skip. exact IH.
Qed.

Lemma leb_trans (a b c : string) :
  (a <=? b)%string = true -> (b <=? c)%string = true -> (a <=? c)%string = true.
Proof.
  unfold String.leb. intros Hab Hbc.
  destruct (String.compare a b) eqn:Eab; try discriminate;
    destruct (String.compare b c) eqn:Ebc; try discriminate.
  - apply String_compare_eq in Eab, Ebc. subst.
    rewrite (proj2 (String_compare_eq c c) eq_refl). reflexivity.
  - apply String_compare_eq in Eab. subst. rewrite Ebc. reflexivity.
  - apply String_compare_eq in Ebc. subst. rewrite Eab. reflexivity.
  - rewrite (String_compare_trans a b c Eab Ebc). reflexivity.
Qed.

Lemma leb_false (a b : string) :
  (a <=? b)%string = false -> (b <=? a)%string = true.
Proof.
  intros H. destruct (String.leb_total a b) as [H' | H']; [congruence | exact H'].
Qed.

Lemma insort_sorted (x : string) (l : list string) :
  StronglySorted (fun a b => (a <=? b)%string = true) l ->
  StronglySorted (fun a b => (a <=? b)%string = true) (insort x l).
Proof.
  induction 1 as [| y l Hs IH Hy]; cbn [insort].
  - constructor; constructor.
  - destruct (x <=? y)%string eqn:E.
    + constructor; [constructor; assumption |].
      constructor; [exact E |].
      apply Forall_forall. intros z Hz. rewrite Forall_forall in Hy.
      apply (leb_trans x y z E). apply Hy. exact Hz.
    + constructor; [exact IH |].
      apply Forall_forall. intros z Hz.
      apply (Permutation_in _ (insort_perm x l)) in Hz.
      destruct Hz as [Hz | Hz]; [subst z; apply leb_false; exact E |].
      rewrite Forall_forall in Hy. apply Hy. exact Hz.
Qed.

Lemma sorted_sorted (l : list string) :
  StronglySorted (fun a b => (a <=? b)%string = true) (sorted l).
Proof.
  induction l as [| x l IH]; cbn [sorted fold_right]; [constructor |].
  apply insort_sorted. exact IH.
Qed.

Lemma countries_In (df : DataFrame) (c : string) :
  In c (countries df) <-> exists r, In r df /\ Country r = c.
Proof.
  unfold countries. split.
  - intros H. apply (Permutation_in _ (sorted_perm _)), unique_In, in_map_iff in H.
    destruct H as [r [H1 H2]]. exists r. auto.
  - intros [r [H1 H2]].
    apply (Permutation_in _ (Permutation_sym (sorted_perm _))), unique_In, in_map_iff.
    exists r. auto.
Qed.

(** X6.  The country selector offers ["All"] and then every country of the
    table once, in ascending order of the name.  With the whole year
    slider selected, choosing a country other than ["All"] shows exactly
    the rows of that country, and there is at least one. *)
Theorem country_options_cover_table (df : DataFrame) :
  country_options df = ALL :: countries df /\
  StronglySorted (fun a b => String.compare a b = Lt) (countries df) /\
  (forall c, In c (countries df) <-> exists r, In r df /\ Country r = c) /\
  (forall c lo hi,
      In c (countries df) -> c <> ALL -> year_slider df = Some (lo, hi) ->
      filter_data df (lo, hi) c = filter (fun r => (Country r =? c)%string) df /\
      filter_data df (lo, hi) c <> []).
Proof.
  split; [reflexivity |]. split; [| split; [apply countries_In |]].
  - unfold countries.
    assert (Hnd : NoDup (sorted (unique (map Country df))))
      by (apply (Permutation_NoDup (Permutation_sym (sorted_perm _))), unique_NoDup).
    pose proof (sorted_sorted (unique (map Country df))) as Hs.
    induction Hs as [| a l Hs IH Ha]; constructor.
    + apply IH. inversion Hnd; assumption.
    + apply Forall_forall. intros b Hb. rewrite Forall_forall in Ha.
      specialize (Ha b Hb). unfold String.leb in Ha.
      destruct (String.compare a b) eqn:E; [| reflexivity | discriminate].
      apply String_compare_eq in E. subst b. inversion Hnd; contradiction.
  - intros c lo hi Hc Hne Hslider.
    pose proof (year_slider_bounds df) as Hb.
    assert (Heq : filter_data df (lo, hi) c =
                  filter (fun r => (Country r =? c)%string) df).
    { rewrite filter_data_selected. apply filter_ext_in. intros r Hr.
      unfold selected. specialize (Hb lo hi Hslider r Hr).
      apply String.eqb_neq in Hne. rewrite Hne.
      destruct (Z.leb_spec lo (Year r)), (Z.leb_spec (Year r) hi);
        cbn [andb orb]; try reflexivity; lia. }
    split; [exact Heq |]. rewrite Heq.
    apply countries_In in Hc. destruct Hc as [r [Hr Hrc]].
    intros E. assert (Hin : In r (filter (fun r => (Country r =? c)%string) df)).
    { apply filter_In. split; [exact Hr | apply String.eqb_eq; exact Hrc]. }
    rewrite E in Hin. exact Hin.
Qed.

(** ** The metrics of [main] *)



Lemma fold_earlier_In (ts : list Timestamp) (t : Timestamp) :
  In (fold_left earlier ts t) (t :: ts).
Proof.
  revert t. induction ts as [| u ts IH]; intros t; cbn [fold_left].
  - left. reflexivity.
  - destruct (IH (earlier t u)) as [E | H]; [| right; right; exact H].
    rewrite <- E. unfold earlier. destruct (value u <? value t)%Z;
      [right; left | left]; reflexivity.
Qed.

Lemma fold_later_In (ts : list Timestamp) (t : Timestamp) :
  In (fold_left later ts t) (t :: ts).
Proof.
  revert t. induction ts as [| u ts IH]; intros t; cbn [fold_left].
  - left. reflexivity.
  - destruct (IH (later t u)) as [E | H]; [| right; right; exact H].
    rewrite <- E. unfold later. destruct (value t <? value u)%Z;
      [right; left | left]; reflexivity.
Qed.

Lemma fold_earlier_least (ts : list Timestamp) (t : Timestamp) :
  forall u, In u (t :: ts) -> (value (fold_left earlier ts t) <= value u)%Z.
Proof.
  revert t. induction ts as [| v ts IH]; intros t u Hu; cbn [fold_left].
  - destruct Hu as [E | []]. subst. lia.
  - assert (Hm : (value (fold_left earlier ts (earlier t v)) <= value (earlier t v))%Z)
      by (apply IH; left; reflexivity).
    assert (He : (value (earlier t v) <= value t /\ value (earlier t v) <= value v)%Z)
      by (unfold earlier; destruct (Z.ltb_spec (value v) (value t)); lia).
    destruct Hu as [E | [E | Hu]]; [subst; lia | subst; lia |].
    apply IH. right. exact Hu.
Qed.

Lemma fold_later_greatest (ts : list Timestamp) (t : Timestamp) :
  forall u, In u (t :: ts) -> (value u <= value (fold_left later ts t))%Z.
Proof.
  revert t. induction ts as [| v ts IH]; intros t u Hu; cbn [fold_left].
  - destruct Hu as [E | []]. subst. lia.
  - assert (Hm : (value (later t v) <= value (fold_left later ts (later t v)))%Z)
      by (apply IH; left; reflexivity).
    assert (He : (value t <= value (later t v) /\ value v <= value (later t v))%Z)
      by (unfold later; destruct (Z.ltb_spec (value t) (value v)); lia).
    destruct Hu as [E | [E | Hu]]; [subst; lia | subst; lia |].
    apply IH. right. exact Hu.
Qed.

(** X8.  On a table whose [Year] is the year of [dt], as the loader leaves
    it, the two years of the date range shown for a selection are years of
    rows of the selection: the rows with the first and with the last date.
    Both therefore lie within the selected year range.  For the empty
    selection both are NaN, and nothing is raised. *)
Theorem date_range_within_selection (df : DataFrame) (lo hi : Z) (country : string) :
  Forall (fun r => Year r = dt_year (dt r)) df ->
  match date_range (filter_data df (lo, hi) country) with
  | (Some first, Some last) =>
      (exists r, In r (filter_data df (lo, hi) country) /\ Year r = first /\
                 forall r', In r' (filter_data df (lo, hi) country) ->
                            (value (dt r) <= value (dt r'))%Z) /\
      (exists r, In r (filter_data df (lo, hi) country) /\ Year r = last /\
                 forall r', In r' (filter_data df (lo, hi) country) ->
                            (value (dt r') <= value (dt r))%Z) /\
      (lo <= first <= hi)%Z /\ (lo <= last <= hi)%Z
  | (None, None) => filter_data df (lo, hi) country = []
  | _ => False
  end.
Proof.
  intros Hyear.
  assert (Hsel : forall r, In r (filter_data df (lo, hi) country) ->
                           Year r = dt_year (dt r) /\ (lo <= Year r <= hi)%Z).
  { intros r Hr. rewrite filter_data_selected in Hr. apply filter_In in Hr.
    destruct Hr as [Hr Hs]. rewrite Forall_forall in Hyear.
    split; [apply Hyear; exact Hr |].
    unfold selected in Hs. rewrite !andb_true_iff, !Z.leb_le in Hs. tauto. }
  unfold date_range, dt_min, dt_max.
  destruct (filter_data df (lo, hi) country) as [| r0 rows]; [reflexivity |].
  cbn [map option_map].
  assert (Hfirst : exists r, In r (r0 :: rows) /\
                             dt r = fold_left earlier (map dt rows) (dt r0)).
  { pose proof (fold_earlier_In (map dt rows) (dt r0)) as H.
    change (dt r0 :: map dt rows) with (map dt (r0 :: rows)) in H.
    apply in_map_iff in H. destruct H as [r [E H]]. exists r. auto. }
  assert (Hlast : exists r, In r (r0 :: rows) /\
                            dt r = fold_left later (map dt rows) (dt r0)).
  { pose proof (fold_later_In (map dt rows) (dt r0)) as H.
    change (dt r0 :: map dt rows) with (map dt (r0 :: rows)) in H.
    apply in_map_iff in H. destruct H as [r [E H]]. exists r. auto. }
  destruct Hfirst as [rf [Hrf Ef]]. destruct Hlast as [rl [Hrl El]].
  destruct (Hsel rf Hrf) as [Hyf Hbf]. destruct (Hsel rl Hrl) as [Hyl Hbl].
  rewrite <- Ef, <- El, <- Hyf, <- Hyl.
  split; [| split; [| split; assumption]].
  - exists rf. split; [exact Hrf | split; [reflexivity |]].
    intros r' Hr'. rewrite Ef. apply fold_earlier_least.
    change (dt r0 :: map dt rows) with (map dt (r0 :: rows)).
    apply in_map. exact Hr'.
  - exists rl. split; [exact Hrl | split; [reflexivity |]].
    intros r' Hr'. rewrite El. apply fold_later_greatest.
    change (dt r0 :: map dt rows) with (map dt (r0 :: rows)).
    apply in_map. exact Hr'.
Qed.

Lemma date_range_within_selection_witness :
  Forall (fun r => Year r = dt_year (dt r)) sample_df /\
  date_range (filter_data sample_df (1999, 2000)%Z ALL) = (Some 1999%Z, Some 2000%Z) /\
  match date_range (filter_data sample_df (1999, 2000)%Z ALL) with
  | (Some first, Some last) =>
      (exists r, In r (filter_data sample_df (1999, 2000)%Z ALL) /\ Year r = first /\
                 forall r', In r' (filter_data sample_df (1999, 2000)%Z ALL) ->
                            (value (dt r) <= value (dt r'))%Z) /\
      (exists r, In r (filter_data sample_df (1999, 2000)%Z ALL) /\ Year r = last /\
                 forall r', In r' (filter_data sample_df (1999, 2000)%Z ALL) ->
                            (value (dt r') <= value (dt r))%Z) /\
      (1999 <= first <= 2000)%Z /\ (1999 <= last <= 2000)%Z
  | (None, None) => filter_data sample_df (1999, 2000)%Z ALL = []
  | _ => False
  end.
Proof.
  assert (H : Forall (fun r => Year r = dt_year (dt r)) sample_df)
    by (repeat constructor).
  split; [exact H | split; [reflexivity |]].
  exact (date_range_within_selection sample_df 1999%Z 2000%Z ALL H).
Defined.

(** ** Means *)










(** ** Charts of a selection *)

Lemma filter_data_In (df : DataFrame) (lo hi : Z) (country : string) (r : Row) :
  In r (filter_data df (lo, hi) country) ->
  In r df /\ (lo <= Year r <= hi)%Z.
Proof.
  rewrite filter_data_selected, filter_In. unfold selected.
  rewrite !andb_true_iff, !Z.leb_le. tauto.
Qed.

Lemma NoDup_Z_range_length (l : list Z) (lo : Z) (n : nat) :
  NoDup l -> (forall k, In k l -> (lo <= k < lo + Z.of_nat n)%Z) ->
  (List.length l <= n)%nat.
Proof.
  intros Hnd Hin.
  assert (Hlen : List.length (Zrange lo n) = n)
    by (unfold Zrange; rewrite length_map, length_seq; reflexivity).
  assert (Hle : (List.length l <= List.length (Zrange lo n))%nat).
  { apply NoDup_incl_length; [exact Hnd |].
    intros k Hk. apply (Zrange_In lo n k). apply Hin. exact Hk. }
  lia.
Qed.

(** X10.  The monthly chart of any selection of a loaded table has at most
    twelve points, their months lie between 1 and 12, and each carries a
    number. *)
Theorem monthly_trend_of_loaded_table
    (to_datetime : string -> option Timestamp) (to_float : string -> option Q)
    (csv : Raw.DataFrame) (df : DataFrame) (lo hi : Z) (country : string) :
  load_and_preprocess_data to_datetime to_float csv = Ok df ->
  (List.length (plot_monthly_trend (filter_data df (lo, hi) country)) <= 12)%nat /\
  forall mo m, In (mo, m) (plot_monthly_trend (filter_data df (lo, hi) country)) ->
               (1 <= mo <= 12)%Z /\ m <> None.
Proof.
  intros Hload. pose proof (load_invariant _ _ _ _ Hload) as Hinv.
  rewrite Forall_forall in Hinv.
  set (sel := filter_data df (lo, hi) country).
  assert (Hsel : forall r, In r sel -> AverageTemperature r <> None /\
                                       (1 <= Month r <= 12)%Z).
  { intros r Hr. apply filter_data_In in Hr. destruct Hr as [Hr _].
    specialize (Hinv r Hr). tauto. }
  assert (Hkeys : forall mo, In mo (map fst (plot_monthly_trend sel)) ->
                             (1 <= mo <= 12)%Z).
  { intros mo Hmo.
    apply (groupby_mean_key_In Z.compare Z.compare_eq_iff) in Hmo.
    destruct Hmo as [r [Hr E]]. subst mo. apply Hsel. exact Hr. }
  split.
  - rewrite <- (length_map fst).
    apply (NoDup_Z_range_length _ 1 12).
    + apply (groupby_mean_NoDup Z.compare Z.compare_eq_iff Z_compare_antisym
               Z_compare_trans).
    + intros k Hk. specialize (Hkeys k Hk). lia.
  - intros mo m Hin. split.
    + apply Hkeys. apply in_map_iff. exists (mo, m). auto.
    + assert (Hall : Forall (fun r => AverageTemperature r <> None) sel)
        by (apply Forall_forall; intros r Hr; apply Hsel; exact Hr).
      destruct (groupby_mean_present Z.compare Z.compare_eq_iff Month sel mo m
                  Hall Hin) as [_ Hm].
      rewrite Hm. discriminate.
Qed.

Lemma monthly_trend_of_loaded_table_witness :
  load_and_preprocess_data iso_to_datetime decimal_to_float sample_csv = Ok sample_df /\
  map fst (plot_monthly_trend (filter_data sample_df (1999, 2000)%Z ALL)) = [2; 7]%Z /\
  (List.length (plot_monthly_trend (filter_data sample_df (1999, 2000)%Z ALL)) <= 12)%nat /\
  forall mo m,
    In (mo, m) (plot_monthly_trend (filter_data sample_df (1999, 2000)%Z ALL)) ->
    (1 <= mo <= 12)%Z /\ m <> None.
Proof.
  split; [reflexivity | split; [reflexivity |]].
  apply (monthly_trend_of_loaded_table iso_to_datetime decimal_to_float sample_csv).
  reflexivity.
Defined.

(** X11.  The yearly chart of a selection has a point only for years of
    the selected range, so at most one point per year of the range and
    none when the range is empty; on a table without missing temperatures
    every point carries a number. *)
Theorem yearly_trend_of_selection (df : DataFrame) (lo hi : Z) (country : string) :
  (forall y m, In (y, m) (plot_yearly_trend (filter_data df (lo, hi) country)) ->
               (lo <= y <= hi)%Z) /\
  (Z.of_nat (List.length (plot_yearly_trend (filter_data df (lo, hi) country)))
   <= Z.max 0 (hi - lo + 1))%Z /\
  (Forall (fun r => AverageTemperature r <> None) df ->
   forall y m, In (y, m) (plot_yearly_trend (filter_data df (lo, hi) country)) ->
               m <> None).
Proof.
  set (sel := filter_data df (lo, hi) country).
  assert (Hkeys : forall y, In y (map fst (plot_yearly_trend sel)) ->
                            (lo <= y <= hi)%Z).
  { intros y Hy.
    apply (groupby_mean_key_In Z.compare Z.compare_eq_iff) in Hy.
    destruct Hy as [r [Hr E]]. subst y. apply filter_data_In in Hr. tauto. }
  split; [| split].
  - intros y m Hin. apply Hkeys. apply in_map_iff. exists (y, m). auto.
  - rewrite <- (length_map fst).
    assert (Hlen : (List.length (map fst (plot_yearly_trend sel))
                    <= Z.to_nat (Z.max 0 (hi - lo + 1)))%nat).
    { apply (NoDup_Z_range_length _ lo).
      - apply (groupby_mean_NoDup Z.compare Z.compare_eq_iff Z_compare_antisym
                 Z_compare_trans).
      - intros k Hk. specialize (Hkeys k Hk). lia. }
    lia.
  - intros Hall y m Hin.
    assert (Hsel : Forall (fun r => AverageTemperature r <> None) sel).
    { apply Forall_forall. intros r Hr. apply filter_data_In in Hr.
      rewrite Forall_forall in Hall. apply Hall. tauto. }
    destruct (groupby_mean_present Z.compare Z.compare_eq_iff Year sel y m
                Hsel Hin) as [_ Hm].
    rewrite Hm. discriminate.
Qed.

(** ** Selections of selections *)

(** X12.  Filtering a selection again for the same country gives the
    selection of the range common to both; in particular filtering twice
    with the same settings changes nothing.  A country's selection is part
    of the selection of all countries, which is part of the table. *)
Theorem filter_data_composes (df : DataFrame) (lo1 hi1 lo2 hi2 : Z) (country : string) :
  filter_data (filter_data df (lo1, hi1) country) (lo2, hi2) country =
    filter_data df (Z.max lo1 lo2, Z.min hi1 hi2) country /\
  filter_data (filter_data df (lo1, hi1) country) (lo1, hi1) country =
    filter_data df (lo1, hi1) country /\
  filter_data (filter_data df (lo1, hi1) ALL) (lo1, hi1) country =
    filter_data df (lo1, hi1) country /\
  incl (filter_data df (lo1, hi1) country) (filter_data df (lo1, hi1) ALL) /\
  incl (filter_data df (lo1, hi1) ALL) df /\
  (List.length (filter_data df (lo1, hi1) country) <= List.length df)%nat.
Proof.
  assert (Hsel : forall lo hi lo' hi' c c' r,
             selected lo hi c r && selected lo' hi' c' r =
             (((Z.max lo lo' <=? Year r)%Z && (Year r <=? Z.min hi hi')%Z) &&
              (((c =? ALL)%string || (Country r =? c)%string) &&
               ((c' =? ALL)%string || (Country r =? c')%string)))).
  { intros lo hi lo' hi' c c' r. unfold selected.
    destruct (Z.leb_spec lo (Year r)), (Z.leb_spec (Year r) hi),
             (Z.leb_spec lo' (Year r)), (Z.leb_spec (Year r) hi'),
             (Z.leb_spec (Z.max lo lo') (Year r)),
             (Z.leb_spec (Year r) (Z.min hi hi'));
      cbn [andb]; try lia; try reflexivity;
      destruct ((c =? ALL)%string || (Country r =? c)%string); reflexivity. }
  repeat split.
  - rewrite !filter_data_selected, filter_filter. apply filter_ext. intros r.
    rewrite Hsel. unfold selected.
    destruct ((country =? ALL)%string || (Country r =? country)%string);
      rewrite ?andb_true_r, ?andb_false_r; reflexivity.
  - rewrite !filter_data_selected, filter_filter. apply filter_ext. intros r.
    destruct (selected lo1 hi1 country r); reflexivity.
  - rewrite !filter_data_selected, filter_filter. apply filter_ext. intros r.
    unfold selected. rewrite String.eqb_refl. cbn [orb].
    destruct ((lo1 <=? Year r)%Z && (Year r <=? hi1)%Z); reflexivity.
  - intros r. rewrite !filter_data_selected, !filter_In. unfold selected.
    rewrite String.eqb_refl, !andb_true_iff. cbn [orb]. tauto.
  - intros r. rewrite filter_data_selected, filter_In. tauto.
  - rewrite filter_data_selected. apply filter_length_le.
Qed.

(** ** The mean of a table and the means of its groups *)









(** ** Coordinates and the histogram *)




Lemma filter_length_pos {A : Type} (p : A -> bool) (l : list A) (x : A) :
  In x l -> p x = true -> (1 <= List.length (filter p l))%nat.
Proof.
  intros Hin Hp.
  assert (H : In x (filter p l)) by (apply filter_In; auto).
  destruct (filter p l); [destruct H | cbn; lia].
Qed.

(** X15.  When the temperatures of a table are not all equal, the first
    bar of the histogram starts at the coldest temperature, the last bar
    ends at the hottest one, and neither bar is empty. *)
Theorem histogram_reaches_extremes (df : DataFrame) (x : Q) (xs : list Q) :
  temperatures df = x :: xs ->
  ~ Qminimum x xs == Qmaximum x xs ->
  exists lo hi n lo' hi' n',
    nth_error (plot_temperature_distribution df) 0 = Some (lo, hi, n) /\
    lo == Qminimum x xs /\ (1 <= n)%nat /\
    nth_error (plot_temperature_distribution df) 49 = Some (lo', hi', n') /\
    hi' == Qmaximum x xs /\ (1 <= n')%nat.
Proof.
  intros Ea Hne.
  unfold plot_temperature_distribution. fold (temperatures df). rewrite Ea.
  destruct (Qminimum_spec x xs) as [Hmin_in Hmin].
  destruct (Qmaximum_spec x xs) as [Hmax_in Hmax].
  assert (Hrange : outer_edges (x :: xs) = (Qminimum x xs, Qmaximum x xs)).
  { unfold outer_edges.
    destruct (Qeq_bool (Qminimum x xs) (Qmaximum x xs)) eqn:B; [| reflexivity].
    apply Qeq_bool_iff in B. contradiction. }
  assert (Hlt : Qminimum x xs < Qmaximum x xs).
  { assert (Hle : Qminimum x xs <= Qmaximum x xs)
      by (apply (Qle_trans _ x); [apply Hmin | apply Hmax]; left; reflexivity).
    apply Qle_lteq in Hle. destruct Hle as [H | H]; [exact H | contradiction]. }
  rewrite histogram_edges, Hrange. cbn [fst snd].
  set (E := edge (Qminimum x xs) (Qmaximum x xs)).
  pose proof (edge_first (Qminimum x xs) (Qmaximum x xs)) as E0.
  pose proof (edge_last (Qminimum x xs) (Qmaximum x xs)) as E50.
  pose proof (edge_increasing (Qminimum x xs) (Qmaximum x xs) 0 Hlt) as I0.
  pose proof (edge_increasing (Qminimum x xs) (Qmaximum x xs) 49 Hlt) as I49.
  fold E in E0, E50, I0, I49. change bins with 50%nat in *.
  do 6 eexists.
  split; [reflexivity |]. split; [exact E0 |].
  split.
  { apply (filter_length_pos _ _ (Qminimum x xs) Hmin_in).
    unfold in_bucket. cbn [Nat.eqb]. apply andb_true_iff. split.
    - apply Qle_bool_iff. lra.
    - apply negb_true_iff, Qle_bool_false. lra. }
  split; [reflexivity |]. split; [exact E50 |].
  apply (filter_length_pos _ _ (Qmaximum x xs) Hmax_in).
  unfold in_bucket. cbn [Nat.eqb]. apply andb_true_iff. split.
  - apply Qle_bool_iff. lra.
  - apply Qle_bool_iff. lra.
Qed.

Lemma histogram_reaches_extremes_witness :
  temperatures two_years = [19; 10; 20] /\
  ~ Qminimum 19 [10; 20] == Qmaximum 19 [10; 20] /\
  exists lo hi n lo' hi' n',
    nth_error (plot_temperature_distribution two_years) 0 = Some (lo, hi, n) /\
    lo == Qminimum 19 [10; 20] /\ (1 <= n)%nat /\
    nth_error (plot_temperature_distribution two_years) 49 = Some (lo', hi', n') /\
    hi' == Qmaximum 19 [10; 20] /\ (1 <= n')%nat.
Proof.
  assert (Hne : ~ Qminimum 19 [10; 20] == Qmaximum 19 [10; 20])
    by (intros H; vm_compute in H; discriminate H).
  split; [reflexivity | split; [exact Hne |]].
  exact (histogram_reaches_extremes two_years 19 [10; 20] eq_refl Hne).
Defined.
